(** * qa/rapi-workload.py: the RAPI workload of the Ganeti QA suite

    A shallow embedding of the Python script and the properties of its
    invocation proxy ([GanetiRapiClientWrapper], [InvokerCreator],
    [MockMethod]), of its job resolver ([Finish]) and of the scenarios built
    on them ([TestTags], [RemoveAllInstances], [Main]).

    Python statements become computations in a state-and-exception monad.
    The state holds the remote cluster, as seen through the RAPI client, and
    a chronological trace of what the script did to the outside world:
    lines printed, text written to stderr, and calls forwarded to the
    underlying client. *)

From Stdlib Require Import List String Ascii ZArith Bool Lia.
Import ListNotations.
Open Scope string_scope.
Set Warnings "-register-all".

(** ** Python values *)

(** The values RAPI calls hand back are decoded JSON documents: [None],
    booleans, integers, byte strings, lists and string-keyed dictionaries.
    Floating-point numbers are left out of the model, and so are tuples,
    which a JSON decoder never produces. *)
Inductive value : Type :=
| VNone : value
| VBool : bool -> value
| VInt : Z -> value
| VStr : string -> value
| VList : list value -> value
| VDict : list (string * value) -> value.

Definition kwargs : Type := list (string * value).

(** The exceptions the script meets.  [GanetiApiError] carries [str(e)]. *)
Inductive exn : Type :=
| GanetiApiError : string -> exn
| ValueError : exn
| TypeError : exn
| AttributeError : exn
| IndexError : exn
| KeyError : exn
| AssertionError : exn
| OtherError : string -> exn.

Definition is_GanetiApiError (e : exn) : bool :=
  match e with GanetiApiError _ => true | _ => false end.

Definition is_ValueError_or_TypeError (e : exn) : bool :=
  match e with ValueError | TypeError => true | _ => false end.

(** ** Built-ins used by the script *)

Module Py.

Definition isspace (c : ascii) : bool :=
  let n := nat_of_ascii c in
  Nat.eqb n 32 || (Nat.leb 9 n && Nat.leb n 13).

Definition isdigit (c : ascii) : bool :=
  let n := nat_of_ascii c in
  Nat.leb 48 n && Nat.leb n 57.

Definition digit_value (c : ascii) : Z := Z.of_nat (nat_of_ascii c) - 48.

Fixpoint lstrip (s : string) : string :=
  match s with
  | String c s' => if isspace c then lstrip s' else s
  | EmptyString => EmptyString
  end.

Fixpoint all_space (s : string) : bool :=
  match s with
  | String c s' => isspace c && all_space s'
  | EmptyString => true
  end.

(** Reads the digits at the head of [s]; what follows them may only be
    white space. *)
Fixpoint digits (acc : Z) (s : string) : option Z :=
  match s with
  | String c s' =>
      if isdigit c then digits (10 * acc + digit_value c) s'
      else if all_space s then Some acc else None
  | EmptyString => Some acc
  end.

Definition starts_with_digit (s : string) : bool :=
  match s with String c _ => isdigit c | EmptyString => false end.

Definition unsigned_literal (s : string) : option Z :=
  if starts_with_digit s then digits 0 s else None.

(** [int(s)] on a string, base ten: white space, an optional sign, at least
    one digit, white space. *)
Definition int_of_string (s : string) : option Z :=
  match lstrip s with
  | String c s' =>
      if Ascii.eqb c "-" then option_map Z.opp (unsigned_literal s')
      else if Ascii.eqb c "+" then unsigned_literal s'
      else unsigned_literal (String c s')
  | EmptyString => None
  end.

(** [int(v)] *)
Definition int (v : value) : exn + Z :=
  match v with
  | VInt n => inr n
  | VBool b => inr (if b then 1 else 0)%Z
  | VStr s => match int_of_string s with Some n => inr n | None => inl ValueError end
  | VNone | VList _ | VDict _ => inl TypeError
  end.

(** Truth value, as tested by [if v:]. *)
Definition truthy (v : value) : bool :=
  match v with
  | VNone => false
  | VBool b => b
  | VInt n => negb (Z.eqb n 0)
  | VStr s => negb (String.eqb s "")
  | VList l => match l with [] => false | _ => true end
  | VDict d => match d with [] => false | _ => true end
  end.

Fixpoint assoc (k : string) (d : list (string * value)) : option value :=
  match d with
  | [] => None
  | (k', v) :: d' => if String.eqb k k' then Some v else assoc k d'
  end.

(** Position [i] of a sequence of length [len], negative positions counted
    from the end. *)
Definition position (i : Z) (len : nat) : option nat :=
  let n := Z.of_nat len in
  if ((0 <=? i) && (i <? n))%Z then Some (Z.to_nat i)
  else if ((- n <=? i) && (i <? 0))%Z then Some (Z.to_nat (n + i))
  else None.

Definition index_key (k : value) : option Z :=
  match k with
  | VInt i => Some i
  | VBool b => Some (if b then 1 else 0)%Z
  | _ => None
  end.

(** [c[k]] *)
Definition getitem (c k : value) : exn + value :=
  match c with
  | VDict d =>
      match k with
      | VStr key => match assoc key d with Some v => inr v | None => inl KeyError end
      | VList _ | VDict _ => inl TypeError
      | _ => inl KeyError
      end
  | VList l =>
      match index_key k with
      | Some i =>
          match position i (List.length l) with
          | Some n => match nth_error l n with Some v => inr v | None => inl IndexError end
          | None => inl IndexError
          end
      | None => inl TypeError
      end
  | VStr s =>
      match index_key k with
      | Some i =>
          match position i (String.length s) with
          | Some n =>
              match String.get n s with
              | Some ch => inr (VStr (String ch EmptyString))
              | None => inl IndexError
              end
          | None => inl IndexError
          end
      | None => inl TypeError
      end
  | VNone | VBool _ | VInt _ => inl TypeError
  end.

Fixpoint chars (s : string) : list value :=
  match s with
  | String c s' => VStr (String c EmptyString) :: chars s'
  | EmptyString => []
  end.

(** The items a [for] loop over [v] visits. *)
Definition iter (v : value) : exn + list value :=
  match v with
  | VList l => inr l
  | VStr s => inr (chars s)
  | VDict d => inr (map (fun kv => VStr (fst kv)) d)
  | VNone | VBool _ | VInt _ => inl TypeError
  end.

(** [len(v)] *)
Definition len (v : value) : exn + Z :=
  match v with
  | VList l => inr (Z.of_nat (List.length l))
  | VStr s => inr (Z.of_nat (String.length s))
  | VDict d => inr (Z.of_nat (List.length d))
  | VNone | VBool _ | VInt _ => inl TypeError
  end.

(** [s.startswith(p)] *)
Definition startswith (p s : string) : bool := String.prefix p s.

End Py.

(** ** The world the script acts on *)

(** A printed line is kept as the pieces its format string puts together:
    literal text (which includes every [%s] filled with a string) and the
    [str()] of a value that is not a string, left symbolic. *)
Inductive piece : Type :=
| Lit : string -> piece
| Shown : value -> piece.

Definition line : Type := list piece.

(** [%s] applied to [v]. *)
Definition str_ (v : value) : piece :=
  match v with
  | VStr s => Lit s
  | _ => Shown v
  end.

(** What an observer of one run sees, in order: a line on stdout, text on
    stderr, and an operation of the underlying RAPI client being called. *)
Inductive event : Type :=
| Print : line -> event
| StderrWrite : string -> event
| Invoke : string -> list value -> kwargs -> event.

Inductive result (A : Type) : Type :=
| Ok : A -> result A
| Raise : exn -> result A.
Arguments Ok {A} _.
Arguments Raise {A} _.

(** How an operation of the underlying client ends. *)
Inductive outcome : Type :=
| Returns : value -> outcome
| Raises : exn -> outcome.

Section Workload.

(** The state of the cluster behind the RAPI client. *)
Context {S : Type}.

Record World : Type := mkWorld { cluster : S; trace : list event }.

Definition emit (e : event) (w : World) : World :=
  mkWorld (cluster w) (trace w ++ [e]).

(** *** The monad of statements *)

Definition M (A : Type) : Type := World -> result A * World.

Definition ret {A} (a : A) : M A := fun w => (Ok a, w).

Definition bind {A B} (m : M A) (k : A -> M B) : M B :=
  fun w =>
    match m w with
    | (Ok a, w') => k a w'
    | (Raise e, w') => (Raise e, w')
    end.

Definition raise {A} (e : exn) : M A := fun w => (Raise e, w).

(** [try: body / except <catches> as e: handler e] *)
Definition try_except {A} (body : M A) (catches : exn -> bool)
    (handler : exn -> M A) : M A :=
  fun w =>
    match body w with
    | (Ok a, w') => (Ok a, w')
    | (Raise e, w') => if catches e then handler e w' else (Raise e, w')
    end.

(** A built-in that either raises or gives a value, touching nothing. *)
Definition lift {A} (r : exn + A) : M A :=
  match r with
  | inl e => raise e
  | inr a => ret a
  end.

Definition print (l : line) : M unit := fun w => (Ok tt, emit (Print l) w).

Definition stderr_write (s : string) : M unit :=
  fun w => (Ok tt, emit (StderrWrite s) w).

Notation "x <- m ;; k" := (bind m (fun x => k))
  (at level 61, m at next level, right associativity).
Notation "m ;; k" := (bind m (fun _ => k))
  (at level 61, right associativity).

Fixpoint for_each {A} (items : list A) (body : A -> M unit) : M unit :=
  match items with
  | [] => ret tt
  | x :: rest => body x ;; for_each rest body
  end.

(** *** The underlying client *)

(** An operation of [GanetiRapiClient]: it sees the arguments and the
    cluster, returns or raises, and leaves the cluster in a new state. *)
Definition method : Type := list value -> kwargs -> S -> outcome * S.

(** The client of some Ganeti version: the operations it has, by name. *)
Definition RapiClient : Type := string -> option method.

Definition callable : Type := list value -> kwargs -> M value.

(** What an attribute lookup can give. *)
Inductive object : Type :=
| Callable : callable -> object
| Client : RapiClient -> object.

(** Calling [f] with positional and keyword arguments. *)
Definition call (f : object) (args : list value) (kw : kwargs) : M value :=
  match f with
  | Callable g => g args kw
  | Client _ => raise TypeError
  end.

(** The bound method [_client.<name>]: calling it runs the operation on the
    cluster; the call is recorded in the trace. *)
Definition bound_method (name : string) (m : method) : callable :=
  fun args kw w =>
    let (o, s') := m args kw (cluster w) in
    (match o with Returns v => Ok v | Raises e => Raise e end,
     mkWorld s' (trace w ++ [Invoke name args kw])).

(** [c.__getattribute__(attr)] on the underlying client. *)
Definition client_getattribute (c : RapiClient) (attr : string) : M object :=
  match c attr with
  | Some m => ret (Callable (bound_method attr m))
  | None => raise AttributeError
  end.

(** *** MockMethod, InvokerCreator *)

Definition MockMethod : callable := fun _args _kwargs => ret VNone.

Definition InvokerCreator (fn : object) (name : string) : callable :=
  fun args kw =>
    try_except
      (print [Lit "Using method "; Lit name] ;;
       call fn args kw)
      is_GanetiApiError
      (fun e =>
         match e with
         | GanetiApiError detail =>
             print [Lit "RAPI error while performing function "; Lit name;
                    Lit " : "; Lit detail] ;;
             ret VNone
         | _ => ret VNone
         end).

Definition RAPI_USERNAME : string := "ganeti-qa".

(** *** GanetiRapiClientWrapper *)

Record GanetiRapiClientWrapper : Type := mkWrapper { _client : RapiClient }.

(** [self.__getattribute__(attr)]: ordinary lookup on the wrapper, whose
    only instance attribute is [_client]. *)
Definition __getattribute__ (self : GanetiRapiClientWrapper) (attr : string)
    : M object :=
  if String.eqb attr "_client" then ret (Client (_client self))
  else raise AttributeError.

Definition __getattr__ (self : GanetiRapiClientWrapper) (attr : string)
    : M object :=
  if Py.startswith "_" attr then __getattribute__ self attr
  else
    try_except
      (f <- client_getattribute (_client self) attr ;;
       ret (Callable (InvokerCreator f attr)))
      (fun e => match e with AttributeError => true | _ => false end)
      (fun _ =>
         print [Lit "Missing method "; Lit attr; Lit "; supplying mock method"] ;;
         ret (Callable MockMethod)).

(** The expression [client.<attr>]: ordinary lookup first, [__getattr__]
    when it finds nothing. *)
Definition getattr (client : GanetiRapiClientWrapper) (attr : string)
    : M object :=
  try_except (__getattribute__ client attr)
    (fun e => match e with AttributeError => true | _ => false end)
    (fun _ => __getattr__ client attr).

(** Looking [attr] up on the wrapper and calling what comes back. *)
Definition invoke (client : GanetiRapiClientWrapper) (attr : string)
    (args : list value) (kw : kwargs) : M value :=
  f <- getattr client attr ;;
  call f args kw.

(** *** Finish *)

Definition is_None (v : value) : bool :=
  match v with VNone => true | _ => false end.

(** [returned] is [Some v] when the [except] branch has returned [v], and
    [None] when [int()] went through and the function goes on. *)
Definition Finish (client : GanetiRapiClientWrapper) (fn : object)
    (args : list value) (kw : kwargs) : M value :=
  possible_job_id <- call fn args kw ;;
  returned <-
    try_except
      (_ <- lift (Py.int possible_job_id) ;; ret None)
      is_ValueError_or_TypeError
      (fun _ =>
         (if is_None possible_job_id then ret tt
          else print [Lit "Finish called with a method not producing a job id, returning ";
                      str_ possible_job_id]) ;;
         ret (Some possible_job_id)) ;;
  match returned with
  | Some v => ret v
  | None =>
      success <- invoke client "WaitForJobCompletion" [possible_job_id] [] ;;
      status <- invoke client "GetJobStatus" [possible_job_id] [] ;;
      opresult <- lift (Py.getitem status (VStr "opresult")) ;;
      result <- lift (Py.getitem opresult (VInt 0)) ;;
      if Py.truthy success then ret result
      else
        print [Lit "Error encountered while performing operation: "] ;;
        print [str_ result] ;;
        ret VNone
  end.

(** *** TestTags *)

Definition tags : list value := [VStr "tag1"; VStr "tag2"; VStr "tag3"].

Definition TestTags (client : GanetiRapiClientWrapper)
    (get_fn add_fn delete_fn : object) (args : list value) : M unit :=
  call get_fn args [] ;;
  Finish client add_fn args [("tags", VList tags); ("dry_run", VBool true)] ;;
  Finish client add_fn args [("tags", VList tags)] ;;
  call get_fn args [] ;;
  Finish client delete_fn args
    [("tags", VList (firstn 1 tags)); ("dry_run", VBool true)] ;;
  Finish client delete_fn args [("tags", VList (firstn 1 tags))] ;;
  call get_fn args [] ;;
  Finish client delete_fn args [("tags", VList (skipn 1 tags))] ;;
  call get_fn args [] ;;
  ret tt.

(** *** TestGetters *)

Definition TestGetters (client : GanetiRapiClientWrapper) : M unit :=
  invoke client "GetVersion" [] [] ;;
  invoke client "GetFeatures" [] [] ;;
  invoke client "GetOperatingSystems" [] [] ;;
  invoke client "GetInfo" [] [] ;;
  invoke client "GetClusterTags" [] [] ;;
  invoke client "GetInstances" [] [] ;;
  invoke client "GetInstances" [] [("bulk", VBool true)] ;;
  invoke client "GetJobs" [] [] ;;
  invoke client "GetJobs" [] [("bulk", VBool true)] ;;
  invoke client "GetNodes" [] [] ;;
  invoke client "GetNodes" [] [("bulk", VBool true)] ;;
  invoke client "GetNetworks" [] [] ;;
  invoke client "GetNetworks" [] [("bulk", VBool true)] ;;
  invoke client "GetGroups" [] [] ;;
  invoke client "GetGroups" [] [("bulk", VBool true)] ;;
  ret tt.

(** *** RemoveAllInstances *)

Definition assert (b : bool) : M unit :=
  if b then ret tt else raise AssertionError.

Definition RemoveAllInstances (client : GanetiRapiClientWrapper) : M unit :=
  instances <- invoke client "GetInstances" [] [] ;;
  items <- lift (Py.iter instances) ;;
  for_each items (fun inst =>
    fn <- getattr client "DeleteInstance" ;;
    Finish client fn [inst] [] ;;
    ret tt) ;;
  instances <- invoke client "GetInstances" [] [] ;;
  n <- lift (Py.len instances) ;;
  assert (Z.eqb n 0).

(** *** TestSingleInstance *)

(** The call shape [Finish(client, client.<attr>, ...)]: the attribute is
    looked up while the arguments are evaluated, then [Finish] runs. *)
Definition Finish_method (client : GanetiRapiClientWrapper) (attr : string)
    (args : list value) (kw : kwargs) : M value :=
  fn <- getattr client attr ;;
  Finish client fn args kw.

Definition TestSingleInstance (client : GanetiRapiClientWrapper)
    (instance_name alternate_name node_one node_two : string) : M unit :=
  Finish_method client "CreateInstance"
    [VStr "create"; VStr instance_name; VStr "plain";
     VList [VDict [("size", VStr "1gb")]]; VList []]
    [("dry_run", VBool true); ("os", VStr "debian-image");
     ("pnode", VStr node_one)] ;;
  Finish_method client "CreateInstance"
    [VStr "create"; VStr instance_name; VStr "plain";
     VList [VDict [("size", VStr "1000")]]; VList [VDict []]]
    [("dry_run", VBool true); ("os", VStr "debian-image");
     ("pnode", VStr node_one)] ;;
  Finish_method client "CreateInstance"
    [VStr "create"; VStr instance_name; VStr "plain";
     VList [VDict [("size", VInt 800)]]; VList [VDict []]]
    [("os", VStr "debian-image"); ("pnode", VStr node_one)] ;;
  Finish_method client "DeleteInstance" [VStr instance_name] [] ;;
  Finish_method client "CreateInstance"
    [VStr "create"; VStr instance_name; VStr "plain";
     VList [VDict [("size", VInt 1200)]]; VList [VDict []]]
    [("os", VStr "debian-image"); ("pnode", VStr node_one)] ;;
  invoke client "GetInstance" [VStr instance_name] [] ;;
  Finish_method client "GetInstanceInfo" [VStr instance_name] [] ;;
  Finish_method client "GetInstanceInfo" [VStr instance_name]
    [("static", VBool true)] ;;
  get_fn <- getattr client "GetInstanceTags" ;;
  add_fn <- getattr client "AddInstanceTags" ;;
  delete_fn <- getattr client "DeleteInstanceTags" ;;
  TestTags client get_fn add_fn delete_fn [VStr instance_name] ;;
  Finish_method client "GrowInstanceDisk"
    [VStr instance_name; VInt 0; VInt 100] [("wait_for_sync", VBool true)] ;;
  Finish_method client "RebootInstance" [VStr instance_name; VStr "soft"]
    [("ignore_secondaries", VBool true); ("dry_run", VBool true);
     ("reason", VStr "Hulk smash gently!")] ;;
  Finish_method client "ShutdownInstance" [VStr instance_name]
    [("dry_run", VBool true); ("no_remember", VBool false);
     ("reason", VStr "Hulk smash hard!")] ;;
  Finish_method client "StartupInstance" [VStr instance_name]
    [("dry_run", VBool true); ("no_remember", VBool false);
     ("reason", VStr "Not hard enough!")] ;;
  Finish_method client "RebootInstance" [VStr instance_name; VStr "soft"]
    [("ignore_secondaries", VBool true); ("dry_run", VBool false)] ;;
  Finish_method client "ShutdownInstance" [VStr instance_name]
    [("dry_run", VBool false); ("no_remember", VBool false)] ;;
  Finish_method client "ModifyInstance" [VStr instance_name]
    [("disk_template", VStr "drbd"); ("remote_node", VStr node_two)] ;;
  Finish_method client "ModifyInstance" [VStr instance_name]
    [("disk_template", VStr "plain")] ;;
  Finish_method client "RenameInstance"
    [VStr instance_name; VStr alternate_name]
    [("ip_check", VBool true); ("name_check", VBool true)] ;;
  Finish_method client "RenameInstance"
    [VStr alternate_name; VStr instance_name] [] ;;
  Finish_method client "DeactivateInstanceDisks" [VStr instance_name] [] ;;
  Finish_method client "ActivateInstanceDisks" [VStr instance_name] [] ;;
  Finish_method client "RecreateInstanceDisks"
    [VStr instance_name; VList [VInt 0]; VList [VStr node_one]] [] ;;
  Finish_method client "StartupInstance" [VStr instance_name]
    [("dry_run", VBool false); ("no_remember", VBool false)] ;;
  invoke client "GetInstanceConsole" [VStr instance_name] [] ;;
  Finish_method client "ReinstallInstance" [VStr instance_name]
    [("os", VNone); ("no_startup", VBool false); ("osparams", VDict [])] ;;
  Finish_method client "DeleteInstance" [VStr instance_name]
    [("dry_run", VBool true)] ;;
  Finish_method client "DeleteInstance" [VStr instance_name] [] ;;
  ret tt.

(** *** Workload, Usage, Main *)

Section Orchestration.

(** The QA modules the script imports ([qa_config], [qa_node], [qa_rapi])
    are not part of this file; the orchestration is stated over any
    implementation of them. *)
Variables Node Instance : Type.
Variable primary : Node -> string.
Variable name : Instance -> string.
Variable Node_Release : Node -> M unit.
Variable Instance_Release : Instance -> M unit.
Variable qa_config_Load : string -> M unit.
Variable qa_config_AcquireNode : M Node.
Variable qa_config_AcquireManyNodes : Z -> M (list Node).
Variable qa_config_ReleaseManyNodes : list Node -> M unit.
Variable qa_config_AcquireInstance : M Instance.
Variable qa_node_TestNodeAddAll : M unit.
Variable qa_node_TestNodeRemoveAll : M unit.
Variable qa_rapi_LookupRapiSecret : string -> M string.
Variable qa_rapi_Setup : string -> string -> M RapiClient.

(** [l[i]] on a Python list held as a Rocq list. *)
Definition item {A} (l : list A) (i : Z) : M A :=
  match Py.position i (List.length l) with
  | Some n => match nth_error l n with Some a => ret a | None => raise IndexError end
  | None => raise IndexError
  end.

Definition __init__ : M GanetiRapiClientWrapper :=
  secret <- qa_rapi_LookupRapiSecret RAPI_USERNAME ;;
  c <- qa_rapi_Setup RAPI_USERNAME secret ;;
  ret (mkWrapper c).

Definition Workload (client : GanetiRapiClientWrapper) : M unit :=
  TestGetters client ;;
  Finish_method client "RedistributeConfig" [] [] ;;
  get_fn <- getattr client "GetClusterTags" ;;
  add_fn <- getattr client "AddClusterTags" ;;
  delete_fn <- getattr client "DeleteClusterTags" ;;
  TestTags client get_fn add_fn delete_fn [] ;;
  node <- qa_config_AcquireNode ;;
  get_fn <- getattr client "GetNodeTags" ;;
  add_fn <- getattr client "AddNodeTags" ;;
  delete_fn <- getattr client "DeleteNodeTags" ;;
  TestTags client get_fn add_fn delete_fn [VStr (primary node)] ;;
  Node_Release node ;;
  RemoveAllInstances client ;;
  nodes <- qa_config_AcquireManyNodes 2 ;;
  instance_one <- qa_config_AcquireInstance ;;
  instance_two <- qa_config_AcquireInstance ;;
  node_one <- item nodes 0 ;;
  node_two <- item nodes 1 ;;
  TestSingleInstance client (name instance_one) (name instance_two)
    (primary node_one) (primary node_two) ;;
  Instance_Release instance_two ;;
  Instance_Release instance_one ;;
  qa_config_ReleaseManyNodes nodes.

Definition newline : string := String (ascii_of_nat 10) EmptyString.
Definition tab : string := String (ascii_of_nat 9) EmptyString.

Definition usage_text : string :=
  "Usage:" ++ newline ++ tab ++ "rapi-workload.py qa-config-file".

Definition Usage : M unit := stderr_write usage_text.

(** [Main], with [sys.argv] as its argument. *)
Definition Main (argv : list string) : M unit :=
  (if Nat.ltb (List.length argv) 2 then Usage else ret tt) ;;
  config_file <- item argv 1 ;;
  qa_config_Load config_file ;;
  qa_node_TestNodeAddAll ;;
  client <- __init__ ;;
  Workload client ;;
  qa_node_TestNodeRemoveAll.

End Orchestration.

End Workload.

Notation "x <- m ;; k" := (bind m (fun x => k))
  (at level 61, m at next level, right associativity).
Notation "m ;; k" := (bind m (fun _ => k))
  (at level 61, right associativity).

(** ** Reading a trace *)

(** The calls that reached the underlying client, in order. *)
Fixpoint invocations (t : list event) : list (string * list value * kwargs) :=
  match t with
  | [] => []
  | Invoke n a k :: t' => (n, a, k) :: invocations t'
  | _ :: t' => invocations t'
  end.

(** The lines printed, in order. *)
Fixpoint printed (t : list event) : list line :=
  match t with
  | [] => []
  | Print l :: t' => l :: printed t'
  | _ :: t' => printed t'
  end.

Definition called (c : string * list value * kwargs) : string := fst (fst c).

(** How many times operation [n] was called. *)
Definition calls_of (n : string) (t : list event) : nat :=
  List.length (filter (fun c => String.eqb (called c) n) (invocations t)).

(** The two operations [Finish] itself calls to resolve a job. *)
Definition is_job_primitive (n : string) : bool :=
  String.eqb n "WaitForJobCompletion" || String.eqb n "GetJobStatus".

(** The calls of a trace other than those of the job primitives. *)
Definition scenario_calls (t : list event) : list (string * list value * kwargs) :=
  filter (fun c => negb (is_job_primitive (called c))) (invocations t).

Fixpoint contains (needle hay : string) : bool :=
  String.prefix needle hay ||
  match hay with
  | String _ hay' => contains needle hay'
  | EmptyString => false
  end.

(** Whether the text of a printed line shows [needle]. *)
Definition mentions (needle : string) (l : line) : bool :=
  existsb (fun p => match p with
                    | Lit s => contains needle s
                    | Shown _ => false
                    end) l.

(** ** The two encodings of a job id *)

Fixpoint all_digits (s : string) : bool :=
  match s with
  | String c s' => Py.isdigit c && all_digits s'
  | EmptyString => true
  end.

(** A string made of digits only, as [str.isdigit] has it: at least one
    character, each a decimal digit. *)
Definition digit_string (s : string) : bool :=
  match s with
  | EmptyString => false
  | _ => all_digits s
  end.

(** A native integer, or a string of digits. *)
Definition job_id_encoding (v : value) : bool :=
  match v with
  | VInt _ => true
  | VStr s => digit_string s
  | _ => false
  end.

(** ** What the wrapper hands out for an operation the client has *)

Definition proxy_method {S} (attr : string) (m : @method S) : @object S :=
  Callable (InvokerCreator (Callable (bound_method attr m)) attr).

(** The end of [Finish]: what it makes of the answers of the two job
    primitives. *)
Definition report_job {S} (success status : value) : @M S value :=
  opresult <- lift (Py.getitem status (VStr "opresult")) ;;
  result <- lift (Py.getitem opresult (VInt 0)) ;;
  if Py.truthy success then ret result
  else
    print [Lit "Error encountered while performing operation: "] ;;
    print [str_ result] ;;
    ret VNone.

(** The part of [Finish] that runs once the return value has passed for a
    job id. *)
Definition resolve_job {S} (client : @GanetiRapiClientWrapper S)
    (possible_job_id : value) : M value :=
  success <- invoke client "WaitForJobCompletion" [possible_job_id] [] ;;
  status <- invoke client "GetJobStatus" [possible_job_id] [] ;;
  report_job success status.

(** What a call through the wrapper makes of the way the operation ended. *)
Definition absorbed (o : outcome) : result value :=
  match o with
  | Returns v => Ok v
  | Raises e => if is_GanetiApiError e then Ok VNone else Raise e
  end.

(** The line the wrapper prints before it forwards a call. *)
Definition audit (attr : string) : event :=
  Print [Lit "Using method "; Lit attr].

(** ** A test double of the client *)

Module Double.

(** A small cluster: its instances, the tags of the cluster, and how many
    jobs were submitted so far. *)
Record Cluster : Type :=
  mkCluster { instances : list string; cluster_tags : list string; submitted : Z }.

Definition empty : Cluster := mkCluster [] [] 0.

Definition names (v : option value) : list string :=
  match v with
  | Some (VList l) =>
      flat_map (fun x => match x with VStr s => [s] | _ => [] end) l
  | _ => []
  end.

Definition dry_run (kw : kwargs) : bool :=
  match Py.assoc "dry_run" kw with
  | Some v => Py.truthy v
  | None => false
  end.

Definition without (gone : list string) (l : list string) : list string :=
  filter (fun x => negb (existsb (String.eqb x) gone)) l.

(** Submits a job that has turned the cluster into [s'], unless the call is
    a dry run; either way the id of the new job comes back. *)
Definition submit (kw : kwargs) (s s' : Cluster) : outcome * Cluster :=
  let id := (submitted s + 1)%Z in
  let after := if dry_run kw then s else s' in
  (Returns (VInt id), mkCluster (instances after) (cluster_tags after) id).

Definition GetInstances : @method Cluster :=
  fun _ _ s => (Returns (VList (map VStr (instances s))), s).

Definition DeleteInstance : @method Cluster :=
  fun args kw s =>
    match args with
    | [VStr n] =>
        submit kw s (mkCluster (without [n] (instances s)) (cluster_tags s)
                       (submitted s))
    | _ => (Raises (GanetiApiError "400 Bad Request"), s)
    end.

(** The client of the end-to-end scenario: job id 42, as a string. *)
Definition CreateInstance : @method Cluster :=
  fun _ _ s => (Returns (VStr "42"), s).

Definition GetClusterTags : @method Cluster :=
  fun _ _ s => (Returns (VList (map VStr (cluster_tags s))), s).

Definition AddClusterTags : @method Cluster :=
  fun _ kw s =>
    submit kw s (mkCluster (instances s)
                   (cluster_tags s ++ names (Py.assoc "tags" kw)) (submitted s)).

Definition DeleteClusterTags : @method Cluster :=
  fun _ kw s =>
    submit kw s (mkCluster (instances s)
                   (without (names (Py.assoc "tags" kw)) (cluster_tags s))
                   (submitted s)).

Definition constant (o : outcome) : @method Cluster := fun _ _ s => (o, s).

(** A client with the operations above, whose two job primitives, where
    present, end the way [wait] and [status] say. *)
Definition client (wait status : option outcome) : @RapiClient Cluster :=
  fun attr =>
    if String.eqb attr "GetInstances" then Some GetInstances
    else if String.eqb attr "DeleteInstance" then Some DeleteInstance
    else if String.eqb attr "CreateInstance" then Some CreateInstance
    else if String.eqb attr "GetClusterTags" then Some GetClusterTags
    else if String.eqb attr "AddClusterTags" then Some AddClusterTags
    else if String.eqb attr "DeleteClusterTags" then Some DeleteClusterTags
    else if String.eqb attr "WaitForJobCompletion" then option_map constant wait
    else if String.eqb attr "GetJobStatus" then option_map constant status
    else None.

Definition opresult (payload : value) : value :=
  VDict [("opresult", VList [payload])].

(** Jobs succeed, with payload "created-ok". *)
Definition succeeding : @GanetiRapiClientWrapper Cluster :=
  mkWrapper (client (Some (Returns (VBool true)))
                    (Some (Returns (opresult (VStr "created-ok"))))).

(** Jobs fail, with payload "disk full". *)
Definition failing : @GanetiRapiClientWrapper Cluster :=
  mkWrapper (client (Some (Returns (VBool false)))
                    (Some (Returns (opresult (VStr "disk full"))))).

(** A version of the client without [GetJobStatus]. *)
Definition without_status : @GanetiRapiClientWrapper Cluster :=
  mkWrapper (client (Some (Returns (VBool true))) None).

(** A version whose [GetJobStatus] is rejected by the server. *)
Definition rejecting_status : @GanetiRapiClientWrapper Cluster :=
  mkWrapper (client (Some (Returns (VBool true)))
                    (Some (Raises (GanetiApiError "404 Not Found")))).

Definition start (s : Cluster) : @World Cluster := mkWorld s [].

(** The wrapper's attribute, for an operation that needs no lookup
    message. *)
Definition attribute (c : @GanetiRapiClientWrapper Cluster) (attr : string)
    : @object Cluster :=
  match _client c attr with
  | Some m => proxy_method attr m
  | None => Callable MockMethod
  end.

(** Stand-ins for the QA modules: nothing to load, no node, no instance. *)
Definition nothing : @M Cluster unit := ret tt.
Definition no_nodes : Z -> @M Cluster (list unit) := fun _ => ret [].
Definition hostname : unit -> string := fun _ => "node1.example.com".

Definition run_Main (argv : list string) : @M Cluster unit :=
  Main unit unit hostname hostname (fun _ => nothing) (fun _ => nothing)
    (fun _ => nothing) (ret tt) no_nodes (fun _ => nothing) (ret tt)
    nothing nothing (fun _ => ret "secret")
    (fun _ _ => ret (_client succeeding)) argv.

(** The tagging scenario on the tags of the cluster, from an empty
    cluster. *)
Definition tagging_run : result unit * @World Cluster :=
  TestTags succeeding
    (attribute succeeding "GetClusterTags")
    (attribute succeeding "AddClusterTags")
    (attribute succeeding "DeleteClusterTags") []
    (start empty).

(** A "CreateInstance" job that fails, started through the wrapper. *)
Definition failed_create : result value * @World Cluster :=
  Finish failing (attribute failing "CreateInstance") [] [] (start empty).

(** The same job, started with the bound method of the client itself. *)
Definition failed_create_unwrapped : result value * @World Cluster :=
  Finish failing (Callable (bound_method "CreateInstance" CreateInstance))
    [] [] (start empty).

(** A client without any operation. *)
Definition bare : @GanetiRapiClientWrapper Cluster :=
  mkWrapper (fun _ => None).

(** A client that has only [GetVersion] and [GetInstances]. *)
Definition probing : @GanetiRapiClientWrapper Cluster :=
  mkWrapper (fun attr =>
    if String.eqb attr "GetVersion" then Some (constant (Returns (VInt 2)))
    else if String.eqb attr "GetInstances" then Some GetInstances
    else None).

(** A client that can list instances and cannot delete them. *)
Definition listing : @GanetiRapiClientWrapper Cluster :=
  mkWrapper (fun attr =>
    if String.eqb attr "GetInstances" then Some GetInstances else None).

(** A version of the client without [WaitForJobCompletion]. *)
Definition without_wait : @GanetiRapiClientWrapper Cluster :=
  mkWrapper (client None (Some (Returns (opresult (VStr "created-ok"))))).

(** A client whose wait breaks down on something that is no RAPI error. *)
Definition crashing_wait : @GanetiRapiClientWrapper Cluster :=
  mkWrapper (client (Some (Raises (OtherError "connection reset")))
                    (Some (Returns (opresult (VStr "created-ok"))))).

End Double.

(** ** Vocabulary of the further properties *)

(** Whether the client has an operation of that name. *)
Definition exposes {S} (c : @RapiClient S) (attr : string) : bool :=
  match c attr with
  | Some _ => true
  | None => false
  end.

(** A client none of whose operations raises anything but
    [GanetiApiError]. *)
Definition only_api_errors {S} (c : @RapiClient S) : Prop :=
  forall attr m args kw s e s',
    c attr = Some m ->
    m args kw s = (Raises e, s') ->
    is_GanetiApiError e = true.

(** A statement out of which no [GanetiApiError] comes. *)
Definition no_api_error {S A} (c : @M S A) : Prop :=
  forall w d, fst (c w) <> Raise (GanetiApiError d).

(** The line the wrapper prints when it has caught the error of an
    operation, if it has. *)
Definition error_lines (attr : string) (o : outcome) : list event :=
  match o with
  | Raises (GanetiApiError detail) =>
      [Print [Lit "RAPI error while performing function "; Lit attr;
              Lit " : "; Lit detail]]
  | _ => []
  end.

(** The line of a lookup that found no operation. *)
Definition missing (attr : string) : event :=
  Print [Lit "Missing method "; Lit attr; Lit "; supplying mock method"].

(** The calls [TestGetters] makes, in its order. *)
Definition getter_calls : list (string * list value * kwargs) :=
  [("GetVersion", [], []);
   ("GetFeatures", [], []);
   ("GetOperatingSystems", [], []);
   ("GetInfo", [], []);
   ("GetClusterTags", [], []);
   ("GetInstances", [], []);
   ("GetInstances", [], [("bulk", VBool true)]);
   ("GetJobs", [], []);
   ("GetJobs", [], [("bulk", VBool true)]);
   ("GetNodes", [], []);
   ("GetNodes", [], [("bulk", VBool true)]);
   ("GetNetworks", [], []);
   ("GetNetworks", [], [("bulk", VBool true)]);
   ("GetGroups", [], []);
   ("GetGroups", [], [("bulk", VBool true)])].

(** An object that some lookup of a public name on the wrapper gave. *)
Definition handed_out {S} (client : @GanetiRapiClientWrapper S)
    (fn : @object S) : Prop :=
  exists attr w w',
    Py.startswith "_" attr = false /\ getattr client attr w = (Ok fn, w').

(** A world reached from [w] by printing only: the cluster is the same and
    no call was made. *)
Definition only_printed {S} (w w' : @World S) : Prop :=
  cluster w' = cluster w /\
  exists ls, trace w' = (trace w ++ map Print ls)%list.

(** A statement that returns and, on the way, prints only. *)
Definition prints_only {S A} (c : @M S A) : Prop :=
  forall w, exists a w', c w = (Ok a, w') /\ only_printed w w'.

(** A statement that returns after the calls listed, those of them the
    client has, and no other. *)
Definition forwards {S} (client : @GanetiRapiClientWrapper S)
    (c : @M S unit) (calls : list (string * list value * kwargs)) : Prop :=
  forall w,
    exists w' during,
      c w = (Ok tt, w') /\
      trace w' = (trace w ++ during)%list /\
      invocations during =
        filter (fun call => exposes (_client client) (called call)) calls.

(** ** Properties *)

Section Properties.

Context {S : Type}.
Local Open Scope list_scope.
Implicit Types (w : @World S) (self client : @GanetiRapiClientWrapper S)
  (fn : @object S) (m : @method S) (attr : string) (v : value)
  (args : list value) (kw : kwargs).

(** *** Running statements *)

Lemma bind_Ok {A B} (c : M A) (k : A -> M B) w a w' :
  c w = (Ok a, w') -> (x <- c ;; k x) w = k a w'.
Proof. intros H. unfold bind. now rewrite H. Qed.

Lemma bind_Raise {A B} (c : M A) (k : A -> M B) w e w' :
  c w = (Raise e, w') -> (x <- c ;; k x) w = (Raise e, w').
Proof. intros H. unfold bind. now rewrite H. Qed.

Lemma bind_Ok_inv {A B} (c : M A) (k : A -> M B) w b w' :
  (x <- c ;; k x) w = (Ok b, w') ->
  exists a w1, c w = (Ok a, w1) /\ k a w1 = (Ok b, w').
Proof.
  unfold bind. destruct (c w) as [[a|e] w1]; intros H.
  - now exists a, w1.
  - discriminate.
Qed.

(** *** Traces *)

Lemma invocations_app (t u : list event) :
  invocations (t ++ u) = invocations t ++ invocations u.
Proof.
  induction t as [|e t IH]; simpl; [reflexivity|].
  destruct e; simpl; now rewrite IH.
Qed.

Lemma scenario_calls_app (t u : list event) :
  scenario_calls (t ++ u) = scenario_calls t ++ scenario_calls u.
Proof. unfold scenario_calls. now rewrite invocations_app, filter_app. Qed.

Lemma calls_of_app n (t u : list event) :
  calls_of n (t ++ u) = calls_of n t + calls_of n u.
Proof.
  unfold calls_of. now rewrite invocations_app, filter_app, length_app.
Qed.

(** *** Attribute lookup *)

Lemma public_is_not__client attr :
  Py.startswith "_" attr = false -> String.eqb attr "_client" = false.
Proof.
  intros H. destruct (String.eqb attr "_client") eqn:E; [|reflexivity].
  apply String.eqb_eq in E. subst attr. discriminate H.
Qed.

Lemma getattr_is___getattr__ self attr w :
  Py.startswith "_" attr = false ->
  getattr self attr w = __getattr__ self attr w.
Proof.
  intros H. unfold getattr, try_except, __getattribute__.
  now rewrite (public_is_not__client attr H).
Qed.

Lemma getattr_exposed self attr m w :
  Py.startswith "_" attr = false ->
  _client self attr = Some m ->
  getattr self attr w = (Ok (proxy_method attr m), w).
Proof.
  intros H Hm. rewrite getattr_is___getattr__ by assumption.
  unfold __getattr__. rewrite H.
  unfold try_except, bind, client_getattribute. now rewrite Hm.
Qed.

Lemma getattr_missing self attr w :
  Py.startswith "_" attr = false ->
  _client self attr = None ->
  getattr self attr w =
    (Ok (Callable MockMethod),
     emit (Print [Lit "Missing method "; Lit attr; Lit "; supplying mock method"]) w).
Proof.
  intros H Hm. rewrite getattr_is___getattr__ by assumption.
  unfold __getattr__. rewrite H.
  unfold try_except, bind, client_getattribute. now rewrite Hm.
Qed.

(** *** Calls through the wrapper *)

Lemma proxy_call_returns attr m args kw w v s' :
  m args kw (cluster w) = (Returns v, s') ->
  call (proxy_method attr m) args kw w =
    (Ok v, mkWorld s' (trace w ++ [audit attr; Invoke attr args kw])).
Proof.
  intros H. unfold proxy_method, call, InvokerCreator, try_except, bind, print,
    call, bound_method, emit. simpl. rewrite H. simpl.
  now rewrite <- app_assoc.
Qed.

Lemma proxy_call_api_error attr m args kw w detail s' :
  m args kw (cluster w) = (Raises (GanetiApiError detail), s') ->
  call (proxy_method attr m) args kw w =
    (Ok VNone,
     mkWorld s' (trace w ++
       [audit attr; Invoke attr args kw;
        Print [Lit "RAPI error while performing function "; Lit attr;
               Lit " : "; Lit detail]])).
Proof.
  intros H. unfold proxy_method, call, InvokerCreator, try_except, bind, print,
    call, bound_method, emit, ret. simpl. rewrite H. simpl.
  now rewrite <- !app_assoc.
Qed.

Lemma proxy_call_other_error attr m args kw w e s' :
  m args kw (cluster w) = (Raises e, s') ->
  is_GanetiApiError e = false ->
  call (proxy_method attr m) args kw w =
    (Raise e, mkWorld s' (trace w ++ [audit attr; Invoke attr args kw])).
Proof.
  intros H He. unfold proxy_method, call, InvokerCreator, try_except, bind,
    print, call, bound_method, emit. simpl. rewrite H. simpl. rewrite He.
  now rewrite <- app_assoc.
Qed.

Lemma invoke_returns self attr m args kw w v s' :
  Py.startswith "_" attr = false ->
  _client self attr = Some m ->
  m args kw (cluster w) = (Returns v, s') ->
  invoke self attr args kw w =
    (Ok v, mkWorld s' (trace w ++ [audit attr; Invoke attr args kw])).
Proof.
  intros H Hm Hr. unfold invoke.
  rewrite (bind_Ok _ _ _ _ _ (getattr_exposed self attr m w H Hm)).
  now apply proxy_call_returns.
Qed.

Lemma invoke_api_error self attr m args kw w detail s' :
  Py.startswith "_" attr = false ->
  _client self attr = Some m ->
  m args kw (cluster w) = (Raises (GanetiApiError detail), s') ->
  invoke self attr args kw w =
    (Ok VNone,
     mkWorld s' (trace w ++
       [audit attr; Invoke attr args kw;
        Print [Lit "RAPI error while performing function "; Lit attr;
               Lit " : "; Lit detail]])).
Proof.
  intros H Hm Hr. unfold invoke.
  rewrite (bind_Ok _ _ _ _ _ (getattr_exposed self attr m w H Hm)).
  now apply proxy_call_api_error.
Qed.

Lemma invoke_other_error self attr m args kw w e s' :
  Py.startswith "_" attr = false ->
  _client self attr = Some m ->
  m args kw (cluster w) = (Raises e, s') ->
  is_GanetiApiError e = false ->
  invoke self attr args kw w =
    (Raise e, mkWorld s' (trace w ++ [audit attr; Invoke attr args kw])).
Proof.
  intros H Hm Hr He. unfold invoke.
  rewrite (bind_Ok _ _ _ _ _ (getattr_exposed self attr m w H Hm)).
  now apply proxy_call_other_error.
Qed.

Lemma invoke_missing self attr args kw w :
  Py.startswith "_" attr = false ->
  _client self attr = None ->
  invoke self attr args kw w =
    (Ok VNone,
     emit (Print [Lit "Missing method "; Lit attr; Lit "; supplying mock method"]) w).
Proof.
  intros H Hm. unfold invoke.
  now rewrite (bind_Ok _ _ _ _ _ (getattr_missing self attr w H Hm)).
Qed.

(** Whatever a call through the wrapper does, it reaches the underlying
    client at most once, under the name looked up, and it never lets a
    [GanetiApiError] out. *)
Lemma invoke_cases self attr args kw w :
  Py.startswith "_" attr = false ->
  exists r w' delta,
    invoke self attr args kw w = (r, w') /\
    trace w' = trace w ++ delta /\
    (invocations delta = [] \/ invocations delta = [(attr, args, kw)]) /\
    (forall d, r <> Raise (GanetiApiError d)).
Proof.
  intros H. destruct (_client self attr) as [m|] eqn:Hm.
  - destruct (m args kw (cluster w)) as [[v|e] s'] eqn:Hr.
    + rewrite (invoke_returns self attr m args kw w v s' H Hm Hr).
      eexists _, _, _. split; [reflexivity|]. simpl.
      split; [reflexivity|]. split; [now right|discriminate].
    + destruct (is_GanetiApiError e) eqn:He.
      * destruct e; try discriminate He.
        rewrite (invoke_api_error self attr m args kw w _ s' H Hm Hr).
        eexists _, _, _. split; [reflexivity|]. simpl.
        split; [reflexivity|]. split; [now right|discriminate].
      * rewrite (invoke_other_error self attr m args kw w e s' H Hm Hr He).
        eexists _, _, _. split; [reflexivity|]. simpl.
        split; [reflexivity|]. split; [now right|].
        intros d [= ->]. discriminate He.
  - rewrite (invoke_missing self attr args kw w H Hm).
    eexists _, _, _. split; [reflexivity|]. simpl.
    split; [reflexivity|]. split; [now left|discriminate].
Qed.

(** *** int() *)

Lemma int_error v e : Py.int v = inl e -> is_ValueError_or_TypeError e = true.
Proof.
  destruct v as [|b|n|s|l|d]; simpl; try discriminate;
    try (intros [= <-]; reflexivity).
  destruct (Py.int_of_string s); [discriminate|]. now intros [= <-].
Qed.

Lemma digits_of_all_digits s : forall acc,
  all_digits s = true -> exists n, Py.digits acc s = Some n.
Proof.
  induction s as [|c s IH]; intros acc H; simpl in *.
  - now exists acc.
  - apply andb_true_iff in H as [Hc Hs]. rewrite Hc. now apply IH.
Qed.

Lemma isdigit_not_space c : Py.isdigit c = true -> Py.isspace c = false.
Proof.
  unfold Py.isdigit, Py.isspace. intros H.
  apply andb_true_iff in H as [H1 H2].
  apply Nat.leb_le in H1. apply Nat.leb_le in H2.
  apply orb_false_iff. split.
  - apply Nat.eqb_neq. lia.
  - apply andb_false_iff. right. apply Nat.leb_gt. lia.
Qed.

Lemma isdigit_not_sign c :
  Py.isdigit c = true -> Ascii.eqb c "-" = false /\ Ascii.eqb c "+" = false.
Proof.
  intros H. split.
  - destruct (Ascii.eqb c "-") eqn:E; [|reflexivity].
    apply Ascii.eqb_eq in E. subst c. discriminate H.
  - destruct (Ascii.eqb c "+") eqn:E; [|reflexivity].
    apply Ascii.eqb_eq in E. subst c. discriminate H.
Qed.

Lemma int_of_digit_string s :
  digit_string s = true -> exists n, Py.int_of_string s = Some n.
Proof.
  destruct s as [|c s]; [discriminate|]. intros H.
  assert (Hc : Py.isdigit c = true).
  { simpl in H. now apply andb_true_iff in H as [Hc _]. }
  unfold Py.int_of_string. simpl Py.lstrip.
  rewrite (isdigit_not_space c Hc).
  destruct (isdigit_not_sign c Hc) as [-> ->].
  unfold Py.unsigned_literal. simpl Py.starts_with_digit. rewrite Hc.
  now apply digits_of_all_digits.
Qed.

(** Both encodings of a job id go through [int()]. *)
Lemma int_of_job_id_encoding v :
  job_id_encoding v = true -> exists n, Py.int v = inr n.
Proof.
  destruct v as [|b|n|s|l|d]; simpl; try discriminate.
  - intros _. now exists n.
  - intros H. destruct (int_of_digit_string s H) as [n ->]. now exists n.
Qed.

(** *** The three ways through Finish *)

Lemma Finish_raises self fn args kw w e w1 :
  call fn args kw w = (Raise e, w1) ->
  Finish self fn args kw w = (Raise e, w1).
Proof. intros H. unfold Finish. now rewrite (bind_Raise _ _ _ _ _ H). Qed.

Lemma Finish_not_job_id self fn args kw w v w1 e :
  call fn args kw w = (Ok v, w1) ->
  Py.int v = inl e ->
  Finish self fn args kw w =
    (Ok v,
     if is_None v then w1
     else emit (Print [Lit "Finish called with a method not producing a job id, returning ";
                       str_ v]) w1).
Proof.
  intros H He. unfold Finish. rewrite (bind_Ok _ _ _ _ _ H).
  unfold bind, try_except, lift. rewrite He. unfold raise.
  rewrite (int_error v e He). destruct (is_None v); reflexivity.
Qed.

Lemma Finish_job_id self fn args kw w v w1 n :
  call fn args kw w = (Ok v, w1) ->
  Py.int v = inr n ->
  Finish self fn args kw w = resolve_job self v w1.
Proof.
  intros H Hn. unfold Finish. rewrite (bind_Ok _ _ _ _ _ H).
  unfold bind at 1. unfold try_except, lift. rewrite Hn. reflexivity.
Qed.

Lemma invocations_prints (ls : list line) : invocations (map Print ls) = [].
Proof. induction ls; simpl; auto. Qed.

(** A call through the wrapper to an operation the client has: the
    operation runs once, and only a [GanetiApiError] is absorbed. *)
Lemma invoke_exposed self attr m args kw w :
  Py.startswith "_" attr = false ->
  _client self attr = Some m ->
  exists w' ls,
    invoke self attr args kw w = (absorbed (fst (m args kw (cluster w))), w') /\
    cluster w' = snd (m args kw (cluster w)) /\
    trace w' = trace w ++ audit attr :: Invoke attr args kw :: map Print ls.
Proof.
  intros H Hm. destruct (m args kw (cluster w)) as [[v|e] s'] eqn:Hr; simpl.
  - rewrite (invoke_returns self attr m args kw w v s' H Hm Hr).
    eexists _, []. repeat split.
  - destruct (is_GanetiApiError e) eqn:He.
    + destruct e; try discriminate He.
      rewrite (invoke_api_error self attr m args kw w _ s' H Hm Hr).
      eexists _, [_]. repeat split.
    + rewrite (invoke_other_error self attr m args kw w e s' H Hm Hr He).
      eexists _, []. repeat split.
Qed.

Lemma getitem_error c k e :
  Py.getitem c k = inl e -> is_GanetiApiError e = false.
Proof.
  unfold Py.getitem. intros H.
  repeat match type of H with
         | context [match ?x with _ => _ end] => destruct x
         end; inversion H; reflexivity.
Qed.

(** The end of [Finish] prints and nothing else. *)
Lemma report_job_cases success status w :
  exists r ls,
    @report_job S success status w =
      (r, mkWorld (cluster w) (trace w ++ map Print ls)) /\
    (forall d, r <> Raise (GanetiApiError d)).
Proof.
  unfold report_job, bind, lift.
  destruct (Py.getitem status (VStr "opresult")) as [e|opresult] eqn:E1.
  - exists (Raise e), []. simpl. rewrite app_nil_r. destruct w. split; [reflexivity|].
    intros d [= ->]. now apply getitem_error in E1.
  - simpl. destruct (Py.getitem opresult (VInt 0)) as [e|result] eqn:E2.
    + exists (Raise e), []. simpl. rewrite app_nil_r. destruct w.
      split; [reflexivity|]. intros d [= ->]. now apply getitem_error in E2.
    + simpl. destruct (Py.truthy success).
      * exists (Ok result), []. simpl. rewrite app_nil_r. destruct w.
        split; [reflexivity|discriminate].
      * eexists (Ok VNone), [_; _]. unfold print, emit, ret. simpl.
        rewrite <- app_assoc. split; [reflexivity|discriminate].
Qed.

(** *** The invocation proxy *)

(** C4.  For an operation name that does not start with an underscore and
    that the wrapped client does not have, attribute lookup on the wrapper
    prints the "Missing method" line and gives [MockMethod]; [MockMethod]
    accepts any positional and keyword arguments, changes nothing (neither
    the cluster nor the trace), returns [None] and does not raise. *)
Theorem missing_operation_gives_MockMethod self attr w :
  Py.startswith "_" attr = false ->
  _client self attr = None ->
  __getattr__ self attr w =
    (Ok (Callable MockMethod),
     mkWorld (cluster w)
       (trace w ++
        [Print [Lit "Missing method "; Lit attr; Lit "; supplying mock method"]])) /\
  getattr self attr w = __getattr__ self attr w /\
  forall args kw w', call (Callable (@MockMethod S)) args kw w' = (Ok VNone, w').
Proof.
  intros H Hm. split; [|split].
  - rewrite <- getattr_is___getattr__ by assumption.
    now rewrite getattr_missing.
  - now apply getattr_is___getattr__.
  - reflexivity.
Qed.

(** C5.  For an operation the wrapped client has, a call through the
    wrapper whose forwarded call raises [GanetiApiError] returns [None]:
    the error is caught, and the line printed for it carries the name of
    the operation and the detail of the error.  Nothing is raised. *)
Theorem api_error_is_caught_and_logged self attr m args kw w detail s' :
  Py.startswith "_" attr = false ->
  _client self attr = Some m ->
  m args kw (cluster w) = (Raises (GanetiApiError detail), s') ->
  exists f,
    getattr self attr w = (Ok f, w) /\
    call f args kw w =
      (Ok VNone,
       mkWorld s'
         (trace w ++
          [Print [Lit "Using method "; Lit attr];
           Invoke attr args kw;
           Print [Lit "RAPI error while performing function "; Lit attr;
                  Lit " : "; Lit detail]])).
Proof.
  intros H Hm Hr. exists (proxy_method attr m). split.
  - now apply getattr_exposed.
  - now apply proxy_call_api_error.
Qed.

(** *** The job resolver *)

(** C1.  When the call returns a native integer or a string of digits,
    [Finish] takes it for a job id: what it then calls on the underlying
    client is [WaitForJobCompletion] once and [GetJobStatus] once, in that
    order, each with the returned value as its argument.  The client has
    both operations, and the wait ends by returning or by a
    [GanetiApiError]. *)
Theorem Finish_job_id_calls_wait_and_status_once
    self fn args kw w v w1 mwait mstatus :
  call fn args kw w = (Ok v, w1) ->
  job_id_encoding v = true ->
  _client self "WaitForJobCompletion" = Some mwait ->
  _client self "GetJobStatus" = Some mstatus ->
  (forall e s, mwait [v] [] (cluster w1) = (Raises e, s) ->
               is_GanetiApiError e = true) ->
  exists r w2 after,
    Finish self fn args kw w = (r, w2) /\
    trace w2 = trace w1 ++ after /\
    invocations after =
      [("WaitForJobCompletion", [v], []); ("GetJobStatus", [v], [])] /\
    calls_of "WaitForJobCompletion" after = 1 /\
    calls_of "GetJobStatus" after = 1.
Proof.
  intros Hcall Hv Hw Hs Hwait.
  destruct (int_of_job_id_encoding v Hv) as [n Hn].
  rewrite (Finish_job_id self fn args kw w v w1 n Hcall Hn).
  unfold resolve_job.
  destruct (invoke_exposed self "WaitForJobCompletion" mwait [v] [] w1
              eq_refl Hw) as (w2 & ls1 & E1 & _ & T1).
  assert (exists success, absorbed (fst (mwait [v] [] (cluster w1))) = Ok success)
    as [success Hsucc].
  { destruct (mwait [v] [] (cluster w1)) as [[b|e] s2] eqn:Ew; simpl.
    - now exists b.
    - rewrite (Hwait e s2 eq_refl). now exists VNone. }
  rewrite Hsucc in E1. rewrite (bind_Ok _ _ _ _ _ E1).
  destruct (invoke_exposed self "GetJobStatus" mstatus [v] [] w2
              eq_refl Hs) as (w3 & ls2 & E2 & _ & T2).
  assert (Hinv : forall ls3,
    invocations
      ((audit "WaitForJobCompletion" :: Invoke "WaitForJobCompletion" [v] []
          :: map Print ls1) ++
       (audit "GetJobStatus" :: Invoke "GetJobStatus" [v] [] :: map Print ls2) ++
       map Print ls3) =
    [("WaitForJobCompletion", [v], []); ("GetJobStatus", [v], [])]).
  { intros ls3. unfold audit. simpl.
    rewrite ?invocations_app, ?invocations_prints. simpl.
    now rewrite ?invocations_app, ?invocations_prints. }
  destruct (absorbed (fst (mstatus [v] [] (cluster w2)))) as [status|e].
  - rewrite (bind_Ok _ _ _ _ _ E2).
    destruct (report_job_cases success status w3) as (r & ls3 & E3 & _).
    rewrite E3. eexists r, _, _. split; [reflexivity|]. simpl trace.
    rewrite T2, T1, <- !app_assoc. split; [reflexivity|].
    split; [apply Hinv|]. unfold calls_of. now rewrite Hinv.
  - rewrite (bind_Raise _ _ _ _ _ E2).
    eexists (Raise e), _, _. split; [reflexivity|].
    rewrite T2, T1, <- !app_assoc. split; [reflexivity|].
    specialize (Hinv []). simpl map in Hinv. rewrite app_nil_r in Hinv.
    split; [apply Hinv|]. unfold calls_of. now rewrite Hinv.
Qed.

(** C2.  When the value the call returns does not go through [int()],
    [Finish] returns that very value.  It calls nothing on the underlying
    client: the cluster is as the call left it, and the trace grows by at
    most the line that says the method produced no job id. *)
Theorem Finish_returns_other_values_unchanged self fn args kw w v w1 e :
  call fn args kw w = (Ok v, w1) ->
  Py.int v = inl e ->
  exists w2 after,
    Finish self fn args kw w = (Ok v, w2) /\
    cluster w2 = cluster w1 /\
    trace w2 = trace w1 ++ after /\
    invocations after = [] /\
    calls_of "WaitForJobCompletion" after = 0 /\
    calls_of "GetJobStatus" after = 0.
Proof.
  intros Hcall He.
  rewrite (Finish_not_job_id self fn args kw w v w1 e Hcall He).
  destruct (is_None v).
  - exists w1, []. rewrite app_nil_r. repeat split.
  - eexists _, [_]. repeat split.
Qed.

(** Once the value passed for a job id and both primitives answered,
    [Finish] is the report on their answers. *)
Lemma Finish_after_both_answers
    self fn args kw w v w1 n mwait mstatus success s2 status s3 :
  call fn args kw w = (Ok v, w1) ->
  Py.int v = inr n ->
  _client self "WaitForJobCompletion" = Some mwait ->
  mwait [v] [] (cluster w1) = (Returns success, s2) ->
  _client self "GetJobStatus" = Some mstatus ->
  mstatus [v] [] s2 = (Returns status, s3) ->
  Finish self fn args kw w =
    report_job success status
      (mkWorld s3
         (trace w1 ++
          [audit "WaitForJobCompletion"; Invoke "WaitForJobCompletion" [v] [];
           audit "GetJobStatus"; Invoke "GetJobStatus" [v] []])).
Proof.
  intros Hcall Hn Hw Ew Hs Es.
  rewrite (Finish_job_id self fn args kw w v w1 n Hcall Hn).
  unfold resolve_job.
  rewrite (bind_Ok _ _ _ _ _
             (invoke_returns self "WaitForJobCompletion" mwait [v] [] w1 success
                s2 eq_refl Hw Ew)).
  rewrite (bind_Ok _ _ _ _ _
             (invoke_returns self "GetJobStatus" mstatus [v] []
                (mkWorld s2
                   (trace w1 ++
                    [audit "WaitForJobCompletion";
                     Invoke "WaitForJobCompletion" [v] []]))
                status s3 eq_refl Hs Es)).
  simpl trace. now rewrite <- app_assoc.
Qed.

(** C6.  When the operation returns a job id and the wait reports success,
    [Finish] returns the first entry of the "opresult" sequence of the job
    status. *)
Theorem Finish_success_returns_first_opresult
    self fn args kw w v w1 n mwait mstatus success s2 status s3 opresult result :
  call fn args kw w = (Ok v, w1) ->
  Py.int v = inr n ->
  _client self "WaitForJobCompletion" = Some mwait ->
  mwait [v] [] (cluster w1) = (Returns success, s2) ->
  Py.truthy success = true ->
  _client self "GetJobStatus" = Some mstatus ->
  mstatus [v] [] s2 = (Returns status, s3) ->
  Py.getitem status (VStr "opresult") = inr opresult ->
  Py.getitem opresult (VInt 0) = inr result ->
  exists w2, Finish self fn args kw w = (Ok result, w2) /\ cluster w2 = s3.
Proof.
  intros Hcall Hn Hw Ew Ht Hs Es Ho Hr.
  rewrite (Finish_after_both_answers self fn args kw w v w1 n mwait mstatus
             success s2 status s3 Hcall Hn Hw Ew Hs Es).
  unfold report_job, bind, lift. rewrite Ho. simpl. rewrite Hr. simpl.
  rewrite Ht. eexists. split; reflexivity.
Qed.

(** C7, as the code has it.  When the operation returns a job id and the
    wait reports failure, [Finish] prints the line "Error encountered while
    performing operation: " and then the first "opresult" payload, and
    returns [None]; no exception escapes.  The report does not name the
    operation. *)
Theorem Finish_failure_prints_payload_and_returns_None
    self fn args kw w v w1 n mwait mstatus success s2 status s3 opresult result :
  call fn args kw w = (Ok v, w1) ->
  Py.int v = inr n ->
  _client self "WaitForJobCompletion" = Some mwait ->
  mwait [v] [] (cluster w1) = (Returns success, s2) ->
  Py.truthy success = false ->
  _client self "GetJobStatus" = Some mstatus ->
  mstatus [v] [] s2 = (Returns status, s3) ->
  Py.getitem status (VStr "opresult") = inr opresult ->
  Py.getitem opresult (VInt 0) = inr result ->
  Finish self fn args kw w =
    (Ok VNone,
     mkWorld s3
       (trace w1 ++
        [Print [Lit "Using method "; Lit "WaitForJobCompletion"];
         Invoke "WaitForJobCompletion" [v] [];
         Print [Lit "Using method "; Lit "GetJobStatus"];
         Invoke "GetJobStatus" [v] [];
         Print [Lit "Error encountered while performing operation: "];
         Print [str_ result]])).
Proof.
  intros Hcall Hn Hw Ew Ht Hs Es Ho Hr.
  rewrite (Finish_after_both_answers self fn args kw w v w1 n mwait mstatus
             success s2 status s3 Hcall Hn Hw Ew Hs Es).
  unfold report_job, bind, lift. rewrite Ho. simpl. rewrite Hr. simpl.
  rewrite Ht. unfold print, emit, ret. simpl. now rewrite <- !app_assoc.
Qed.

(** C10.  Once a job id was obtained and the wait came back, a client
    without [GetJobStatus], or one whose [GetJobStatus] raises
    [GanetiApiError], makes the wrapper hand [None] to [Finish] as the
    status, and [Finish] raises [TypeError] on subscripting it. *)
Theorem Finish_raises_TypeError_without_status
    self fn args kw w v w1 n success w2 :
  call fn args kw w = (Ok v, w1) ->
  Py.int v = inr n ->
  invoke self "WaitForJobCompletion" [v] [] w1 = (Ok success, w2) ->
  (_client self "GetJobStatus" = None \/
   exists m detail s',
     _client self "GetJobStatus" = Some m /\
     m [v] [] (cluster w2) = (Raises (GanetiApiError detail), s')) ->
  exists w3,
    invoke self "GetJobStatus" [v] [] w2 = (Ok VNone, w3) /\
    Finish self fn args kw w = (Raise TypeError, w3).
Proof.
  intros Hcall Hn Ew Hs.
  rewrite (Finish_job_id self fn args kw w v w1 n Hcall Hn).
  unfold resolve_job. rewrite (bind_Ok _ _ _ _ _ Ew).
  destruct Hs as [Hs | (m & detail & s' & Hs & Es)].
  - pose proof (invoke_missing self "GetJobStatus" [v] [] w2 eq_refl Hs) as E.
    rewrite (bind_Ok _ _ _ _ _ E), E. eexists. split; reflexivity.
  - pose proof (invoke_api_error self "GetJobStatus" m [v] [] w2 detail s'
                  eq_refl Hs Es) as E.
    rewrite (bind_Ok _ _ _ _ _ E), E. eexists. split; reflexivity.
Qed.

(** With a callable handed out by the wrapper, [Finish] itself never
    raises [GanetiApiError]. *)
Lemma Finish_raises_no_api_error self attr fn w0 w0' args kw w :
  Py.startswith "_" attr = false ->
  getattr self attr w0 = (Ok fn, w0') ->
  forall d, fst (Finish self fn args kw w) <> Raise (GanetiApiError d).
Proof.
  intros H Hfn d.
  assert (Hcall : forall d', fst (call fn args kw w) <> Raise (GanetiApiError d')).
  { destruct (_client self attr) as [m|] eqn:Hm.
    - rewrite (getattr_exposed self attr m w0 H Hm) in Hfn.
      injection Hfn as <- _. intros d'.
      destruct (m args kw (cluster w)) as [[v|e] s'] eqn:Hr.
      + now rewrite (proxy_call_returns attr m args kw w v s' Hr).
      + destruct (is_GanetiApiError e) eqn:He.
        * destruct e; try discriminate He.
          now rewrite (proxy_call_api_error attr m args kw w _ s' Hr).
        * rewrite (proxy_call_other_error attr m args kw w e s' Hr He).
          simpl. intros [= ->]. discriminate He.
    - rewrite (getattr_missing self attr w0 H Hm) in Hfn.
      injection Hfn as <- _. discriminate. }
  destruct (call fn args kw w) as [[v|e] w1] eqn:Ecall.
  - destruct (Py.int v) as [e|n] eqn:En.
    + now rewrite (Finish_not_job_id self fn args kw w v w1 e Ecall En).
    + rewrite (Finish_job_id self fn args kw w v w1 n Ecall En).
      unfold resolve_job.
      destruct (invoke_cases self "WaitForJobCompletion" [v] [] w1 eq_refl)
        as (r1 & w2 & d1 & E1 & _ & _ & H1).
      destruct r1 as [success|e1].
      * rewrite (bind_Ok _ _ _ _ _ E1).
        destruct (invoke_cases self "GetJobStatus" [v] [] w2 eq_refl)
          as (r2 & w3 & d2 & E2 & _ & _ & H2).
        destruct r2 as [status|e2].
        -- rewrite (bind_Ok _ _ _ _ _ E2).
           destruct (report_job_cases success status w3) as (r & ls & E3 & H3).
           rewrite E3. apply H3.
        -- rewrite (bind_Raise _ _ _ _ _ E2). apply H2.
      * rewrite (bind_Raise _ _ _ _ _ E1). apply H1.
  - rewrite (Finish_raises self fn args kw w e w1 Ecall). apply (Hcall d).
Qed.

(** *** The tagging scenario *)

Lemma scenario_calls_of_primitive (t : list event) n args kw :
  is_job_primitive n = true ->
  invocations t = [] \/ invocations t = [(n, args, kw)] ->
  scenario_calls t = [].
Proof.
  intros Hn [H|H]; unfold scenario_calls; rewrite H; simpl; [reflexivity|].
  unfold called. simpl. now rewrite Hn.
Qed.

Lemma scenario_calls_prints (ls : list line) : scenario_calls (map Print ls) = [].
Proof. unfold scenario_calls. now rewrite invocations_prints. Qed.

Lemma call_proxy_trace attr m args kw w r w' :
  call (proxy_method attr m) args kw w = (r, w') ->
  exists after,
    trace w' = trace w ++ after /\ invocations after = [(attr, args, kw)].
Proof.
  destruct (m args kw (cluster w)) as [[v|e] s'] eqn:Hr.
  - rewrite (proxy_call_returns attr m args kw w v s' Hr). intros [= <- <-].
    eexists. split; reflexivity.
  - destruct (is_GanetiApiError e) eqn:He.
    + destruct e; try discriminate He.
      rewrite (proxy_call_api_error attr m args kw w _ s' Hr). intros [= <- <-].
      eexists. split; reflexivity.
    + rewrite (proxy_call_other_error attr m args kw w e s' Hr He).
      intros [= <- <-]. eexists. split; reflexivity.
Qed.

(** Resolving a job calls nothing but the two job primitives. *)
Lemma resolve_job_trace self v w r w' :
  resolve_job self v w = (r, w') ->
  exists after, trace w' = trace w ++ after /\ scenario_calls after = [].
Proof.
  unfold resolve_job.
  destruct (invoke_cases self "WaitForJobCompletion" [v] [] w eq_refl)
    as (r1 & w1 & d1 & E1 & T1 & I1 & _).
  apply (scenario_calls_of_primitive d1 "WaitForJobCompletion" _ _ eq_refl)
    in I1.
  destruct r1 as [success|e1].
  - rewrite (bind_Ok _ _ _ _ _ E1).
    destruct (invoke_cases self "GetJobStatus" [v] [] w1 eq_refl)
      as (r2 & w2 & d2 & E2 & T2 & I2 & _).
    apply (scenario_calls_of_primitive d2 "GetJobStatus" _ _ eq_refl) in I2.
    destruct r2 as [status|e2].
    + rewrite (bind_Ok _ _ _ _ _ E2).
      destruct (report_job_cases success status w2) as (r3 & ls & E3 & _).
      rewrite E3. intros [= <- <-]. simpl trace.
      exists (d1 ++ d2 ++ map Print ls). rewrite T2, T1, <- !app_assoc.
      split; [reflexivity|].
      now rewrite !scenario_calls_app, I1, I2, scenario_calls_prints.
    + rewrite (bind_Raise _ _ _ _ _ E2). intros [= <- <-].
      exists (d1 ++ d2). rewrite T2, T1, <- !app_assoc.
      split; [reflexivity|]. now rewrite scenario_calls_app, I1, I2.
  - rewrite (bind_Raise _ _ _ _ _ E1). intros [= <- <-].
    exists d1. now split.
Qed.

(** However it ends, [Finish] on an operation handed out by the wrapper
    calls that operation once; everything else it calls is a job
    primitive. *)
Lemma Finish_proxy_trace self attr m args kw w r w' :
  is_job_primitive attr = false ->
  Finish self (proxy_method attr m) args kw w = (r, w') ->
  exists after,
    trace w' = trace w ++ after /\ scenario_calls after = [(attr, args, kw)].
Proof.
  intros Hp.
  assert (Hone : forall d, invocations d = [(attr, args, kw)] ->
                           scenario_calls d = [(attr, args, kw)]).
  { intros d Hd. unfold scenario_calls. rewrite Hd. simpl. unfold called.
    simpl. now rewrite Hp. }
  destruct (call (proxy_method attr m) args kw w) as [[v|e] w1] eqn:Ecall;
    destruct (call_proxy_trace attr m args kw w _ w1 Ecall) as (d1 & T1 & I1).
  - destruct (Py.int v) as [e|n] eqn:En.
    + rewrite (Finish_not_job_id self _ args kw w v w1 e Ecall En).
      intros [= <- <-]. destruct (is_None v).
      * exists d1. split; [assumption|now apply Hone].
      * eexists (d1 ++ [_]). simpl trace. rewrite T1, <- app_assoc.
        split; [reflexivity|].
        rewrite scenario_calls_app, (Hone d1 I1). reflexivity.
    + rewrite (Finish_job_id self _ args kw w v w1 n Ecall En). intros Hres.
      destruct (resolve_job_trace self v w1 r w' Hres) as (d2 & T2 & I2).
      exists (d1 ++ d2). rewrite T2, T1, <- app_assoc. split; [reflexivity|].
      now rewrite scenario_calls_app, (Hone d1 I1), I2.
  - rewrite (Finish_raises self _ args kw w e w1 Ecall). intros [= <- <-].
    exists d1. split; [assumption|now apply Hone].
Qed.

Lemma calls_of_scenario n (t : list event) :
  is_job_primitive n = false ->
  calls_of n t =
    List.length (filter (fun c => String.eqb (called c) n) (scenario_calls t)).
Proof.
  intros Hn. unfold calls_of, scenario_calls.
  induction (invocations t) as [|c l IH]; simpl; [reflexivity|].
  destruct (String.eqb (called c) n) eqn:E.
  - assert (Hc : is_job_primitive (called c) = false).
    { pose proof (proj1 (String.eqb_eq _ _) E) as E'. now rewrite E'. }
    rewrite Hc. simpl. rewrite E. simpl. now rewrite IH.
  - destruct (negb (is_job_primitive (called c))); simpl; [rewrite E|]; apply IH.
Qed.

Lemma scenario_calls_single (t : list event) n args kw :
  is_job_primitive n = false ->
  invocations t = [(n, args, kw)] ->
  scenario_calls t = [(n, args, kw)].
Proof.
  intros Hn H. unfold scenario_calls. rewrite H. simpl. unfold called. simpl.
  now rewrite Hn.
Qed.

(** C3, as the code has it.  In a run of [TestTags] that reaches its end,
    on three distinct operations handed out by the wrapper, the operations
    of the scenario are called in this order: get, add (dry run), add, get,
    delete of the first tag (dry run), delete of the first tag, get, delete
    of the other two tags, get.  So get is called four times, add twice and
    delete three times. *)
Theorem TestTags_calls_get_four_add_two_delete_three
    self g a d mg ma md args w w' :
  is_job_primitive g = false ->
  is_job_primitive a = false ->
  is_job_primitive d = false ->
  g <> a -> g <> d -> a <> d ->
  TestTags self (proxy_method g mg) (proxy_method a ma) (proxy_method d md)
    args w = (Ok tt, w') ->
  exists during,
    trace w' = trace w ++ during /\
    scenario_calls during =
      [(g, args, []);
       (a, args, [("tags", VList [VStr "tag1"; VStr "tag2"; VStr "tag3"]);
                  ("dry_run", VBool true)]);
       (a, args, [("tags", VList [VStr "tag1"; VStr "tag2"; VStr "tag3"])]);
       (g, args, []);
       (d, args, [("tags", VList [VStr "tag1"]); ("dry_run", VBool true)]);
       (d, args, [("tags", VList [VStr "tag1"])]);
       (g, args, []);
       (d, args, [("tags", VList [VStr "tag2"; VStr "tag3"])]);
       (g, args, [])] /\
    calls_of g during = 4 /\
    calls_of a during = 2 /\
    calls_of d during = 3.
Proof.
  intros Hg Ha Hd Hga Hgd Had H. unfold TestTags in H.
  apply bind_Ok_inv in H as (x1 & w1 & E1 & H).
  apply bind_Ok_inv in H as (x2 & w2 & E2 & H).
  apply bind_Ok_inv in H as (x3 & w3 & E3 & H).
  apply bind_Ok_inv in H as (x4 & w4 & E4 & H).
  apply bind_Ok_inv in H as (x5 & w5 & E5 & H).
  apply bind_Ok_inv in H as (x6 & w6 & E6 & H).
  apply bind_Ok_inv in H as (x7 & w7 & E7 & H).
  apply bind_Ok_inv in H as (x8 & w8 & E8 & H).
  apply bind_Ok_inv in H as (x9 & w9 & E9 & H).
  injection H as <-.
  apply call_proxy_trace in E1 as (d1 & T1 & I1).
  apply (Finish_proxy_trace _ _ _ _ _ _ _ _ Ha) in E2 as (d2 & T2 & I2).
  apply (Finish_proxy_trace _ _ _ _ _ _ _ _ Ha) in E3 as (d3 & T3 & I3).
  apply call_proxy_trace in E4 as (d4 & T4 & I4).
  apply (Finish_proxy_trace _ _ _ _ _ _ _ _ Hd) in E5 as (d5 & T5 & I5).
  apply (Finish_proxy_trace _ _ _ _ _ _ _ _ Hd) in E6 as (d6 & T6 & I6).
  apply call_proxy_trace in E7 as (d7 & T7 & I7).
  apply (Finish_proxy_trace _ _ _ _ _ _ _ _ Hd) in E8 as (d8 & T8 & I8).
  apply call_proxy_trace in E9 as (d9 & T9 & I9).
  apply (scenario_calls_single _ _ _ _ Hg) in I1, I4, I7, I9.
  exists (d1 ++ d2 ++ d3 ++ d4 ++ d5 ++ d6 ++ d7 ++ d8 ++ d9).
  assert (Hcalls :
    scenario_calls (d1 ++ d2 ++ d3 ++ d4 ++ d5 ++ d6 ++ d7 ++ d8 ++ d9) =
      [(g, args, []);
       (a, args, [("tags", VList [VStr "tag1"; VStr "tag2"; VStr "tag3"]);
                  ("dry_run", VBool true)]);
       (a, args, [("tags", VList [VStr "tag1"; VStr "tag2"; VStr "tag3"])]);
       (g, args, []);
       (d, args, [("tags", VList [VStr "tag1"]); ("dry_run", VBool true)]);
       (d, args, [("tags", VList [VStr "tag1"])]);
       (g, args, []);
       (d, args, [("tags", VList [VStr "tag2"; VStr "tag3"])]);
       (g, args, [])]).
  { rewrite !scenario_calls_app, I1, I2, I3, I4, I5, I6, I7, I8, I9.
    reflexivity. }
  assert (Hag : a <> g) by congruence.
  assert (Hdg : d <> g) by congruence.
  assert (Hda : d <> a) by congruence.
  apply String.eqb_neq in Hga, Hgd, Had, Hag, Hdg, Hda.
  split; [|split; [exact Hcalls|]].
  - rewrite T9, T8, T7, T6, T5, T4, T3, T2, T1, <- !app_assoc. reflexivity.
  - rewrite !calls_of_scenario, Hcalls by assumption. unfold called. simpl.
    rewrite !String.eqb_refl, Hga, Hgd, Had, Hag, Hdg, Hda. repeat split.
Qed.

(** *** Removing all instances *)

Section RemoveAll.

Variable self : @GanetiRapiClientWrapper S.
Variable insts : S -> list string.
Variables mget mdel : @method S.

Hypothesis has_GetInstances : _client self "GetInstances" = Some mget.
Hypothesis has_DeleteInstance : _client self "DeleteInstance" = Some mdel.

(** [GetInstances] lists the names of the instances and removes none. *)
Hypothesis GetInstances_lists : forall s,
  exists s',
    mget [] [] s = (Returns (VList (map VStr (insts s))), s') /\
    insts s' = insts s.

(** Each deletion succeeds: resolved by [Finish], the deletion of an
    instance of the cluster returns, and the cluster then has the instances
    it had, less that one. *)
Hypothesis deletion_succeeds : forall w n,
  In n (insts (cluster w)) ->
  exists r w',
    Finish self (proxy_method "DeleteInstance" mdel) [VStr n] [] w = (Ok r, w') /\
    insts (cluster w') = remove string_dec n (insts (cluster w)).

Lemma deletion_loop (l : list string) : forall w,
  NoDup l ->
  (forall x, In x (insts (cluster w)) <-> In x l) ->
  exists w',
    for_each (map VStr l)
      (fun inst =>
         fn <- getattr self "DeleteInstance" ;;
         Finish self fn [inst] [] ;;
         ret tt) w = (Ok tt, w') /\
    insts (cluster w') = [].
Proof.
  induction l as [|n l IH]; intros w Hnd Hl.
  - exists w. split; [reflexivity|].
    destruct (insts (cluster w)) as [|x rest]; [reflexivity|].
    destruct (proj1 (Hl x) (or_introl eq_refl)).
  - inversion Hnd as [|? ? Hn Hnd']; subst.
    destruct (deletion_succeeds w n) as (r & w1 & E & Hi).
    { apply Hl. now left. }
    destruct (IH w1 Hnd') as (w2 & Eloop & Hempty).
    { intros x. rewrite Hi. split.
      - intros Hx. apply in_remove in Hx as [Hx Hne].
        apply Hl in Hx as [->|Hx]; [contradiction|assumption].
      - intros Hx. apply in_in_remove.
        + intros ->. contradiction.
        + apply Hl. now right. }
    exists w2. split; [|assumption].
    simpl map. simpl for_each.
    rewrite (bind_Ok _ _ w tt w1); [exact Eloop|].
    rewrite (bind_Ok _ _ _ _ _
               (getattr_exposed self "DeleteInstance" mdel w eq_refl
                  has_DeleteInstance)).
    now rewrite (bind_Ok _ _ _ _ _ E).
Qed.

(** C8.  [RemoveAllInstances] lists the instances, deletes each through
    [Finish], lists them again, and its assertion that none is left holds,
    provided each deletion succeeds and nothing else changes the set of
    instances. *)
Theorem RemoveAllInstances_assertion_holds w :
  NoDup (insts (cluster w)) ->
  exists w',
    RemoveAllInstances self w = (Ok tt, w') /\ insts (cluster w') = [].
Proof.
  intros Hnd. unfold RemoveAllInstances.
  destruct (GetInstances_lists (cluster w)) as (s1 & Eg & Hi).
  rewrite (bind_Ok _ _ _ _ _
             (invoke_returns self "GetInstances" mget [] [] w _ s1 eq_refl
                has_GetInstances Eg)).
  set (w1 := mkWorld s1 _).
  rewrite (bind_Ok _ _ w1 (map VStr (insts (cluster w))) w1 eq_refl).
  destruct (deletion_loop (insts (cluster w)) w1 Hnd) as (w2 & Eloop & Hempty).
  { intros x. unfold w1. simpl. now rewrite Hi. }
  rewrite (bind_Ok _ _ _ _ _ Eloop).
  destruct (GetInstances_lists (cluster w2)) as (s3 & Eg' & Hi').
  rewrite Hempty in Eg'. simpl map in Eg'.
  rewrite (bind_Ok _ _ _ _ _
             (invoke_returns self "GetInstances" mget [] [] w2 _ s3 eq_refl
                has_GetInstances Eg')).
  eexists. split; [reflexivity|]. simpl. now rewrite Hi'.
Qed.

End RemoveAll.

(** *** The entry point *)

Section Entry.

Variables Node Instance : Type.
Variable primary : Node -> string.
Variable name : Instance -> string.
Variable Node_Release : Node -> @M S unit.
Variable Instance_Release : Instance -> @M S unit.
Variable qa_config_Load : string -> @M S unit.
Variable qa_config_AcquireNode : @M S Node.
Variable qa_config_AcquireManyNodes : Z -> @M S (list Node).
Variable qa_config_ReleaseManyNodes : list Node -> @M S unit.
Variable qa_config_AcquireInstance : @M S Instance.
Variable qa_node_TestNodeAddAll : @M S unit.
Variable qa_node_TestNodeRemoveAll : @M S unit.
Variable qa_rapi_LookupRapiSecret : string -> @M S string.
Variable qa_rapi_Setup : string -> string -> @M S (@RapiClient S).

(** C9.  With fewer than two entries in [sys.argv], [Main] writes the usage
    message to stderr and goes on: reading [sys.argv[1]] raises
    [IndexError], which ends the run.  Nothing else has happened by then:
    no configuration was loaded, no call was made. *)
Theorem Main_without_argument_raises_IndexError (argv : list string) w :
  List.length argv < 2 ->
  Main Node Instance primary name Node_Release Instance_Release
    qa_config_Load qa_config_AcquireNode qa_config_AcquireManyNodes
    qa_config_ReleaseManyNodes qa_config_AcquireInstance
    qa_node_TestNodeAddAll qa_node_TestNodeRemoveAll
    qa_rapi_LookupRapiSecret qa_rapi_Setup argv w =
  (Raise IndexError,
   mkWorld (cluster w) (trace w ++ [StderrWrite usage_text])).
Proof.
  intros H. destruct argv as [|a0 [|a1 rest]]; simpl in H; try lia;
    reflexivity.
Qed.

End Entry.

End Properties.

(** ** The test double at work *)

Open Scope list_scope.

Lemma without_is_remove n (l : list string) :
  Double.without [n] l = remove string_dec n l.
Proof.
  unfold Double.without. induction l as [|x l IH]; [reflexivity|].
  cbn [filter remove]. rewrite <- IH. cbn [existsb]. rewrite orb_false_r.
  destruct (string_dec n x) as [->|Hne].
  - now rewrite String.eqb_refl.
  - destruct (String.eqb x n) eqn:E; [|reflexivity].
    apply String.eqb_eq in E. congruence.
Qed.

Lemma missing_operation_witness :
  getattr Double.succeeding "GetNetworks" (Double.start Double.empty) =
    (Ok (Callable MockMethod),
     mkWorld Double.empty
       [Print [Lit "Missing method "; Lit "GetNetworks";
               Lit "; supplying mock method"]]) /\
  call (Callable (@MockMethod Double.Cluster))
    [VInt 7] [("bulk", VBool true)] (Double.start Double.empty) =
    (Ok VNone, Double.start Double.empty).
Proof.
  destruct (missing_operation_gives_MockMethod Double.succeeding "GetNetworks"
              (Double.start Double.empty) eq_refl eq_refl) as (H1 & H2 & H3).
  split.
  - rewrite H2. exact H1.
  - apply H3.
Defined.

Lemma api_error_witness :
  exists f,
    getattr Double.succeeding "DeleteInstance" (Double.start Double.empty) =
      (Ok f, Double.start Double.empty) /\
    call f [] [] (Double.start Double.empty) =
      (Ok VNone,
       mkWorld Double.empty
         [Print [Lit "Using method "; Lit "DeleteInstance"];
          Invoke "DeleteInstance" [] [];
          Print [Lit "RAPI error while performing function ";
                 Lit "DeleteInstance"; Lit " : "; Lit "400 Bad Request"]]).
Proof.
  exact (api_error_is_caught_and_logged Double.succeeding "DeleteInstance"
           Double.DeleteInstance [] [] (Double.start Double.empty)
           "400 Bad Request" Double.empty eq_refl eq_refl eq_refl).
Defined.

Lemma job_id_witness :
  exists r w2 after,
    Finish Double.succeeding
      (Double.attribute Double.succeeding "CreateInstance") [] []
      (Double.start Double.empty) = (r, w2) /\
    trace w2 =
      [Print [Lit "Using method "; Lit "CreateInstance"];
       Invoke "CreateInstance" [] []] ++ after /\
    invocations after =
      [("WaitForJobCompletion", [VStr "42"], []);
       ("GetJobStatus", [VStr "42"], [])] /\
    calls_of "WaitForJobCompletion" after = 1 /\
    calls_of "GetJobStatus" after = 1.
Proof.
  refine (Finish_job_id_calls_wait_and_status_once Double.succeeding
            (Double.attribute Double.succeeding "CreateInstance") [] []
            (Double.start Double.empty) (VStr "42")
            (mkWorld Double.empty
               [Print [Lit "Using method "; Lit "CreateInstance"];
                Invoke "CreateInstance" [] []])
            (Double.constant (Returns (VBool true)))
            (Double.constant (Returns (Double.opresult (VStr "created-ok"))))
            eq_refl eq_refl eq_refl eq_refl _).
  intros e s H. discriminate H.
Defined.

Lemma other_value_witness :
  exists w2 after,
    Finish Double.succeeding
      (Double.attribute Double.succeeding "GetInstances") [] []
      (Double.start Double.empty) = (Ok (VList []), w2) /\
    cluster w2 = Double.empty /\
    trace w2 =
      [Print [Lit "Using method "; Lit "GetInstances"];
       Invoke "GetInstances" [] []] ++ after /\
    invocations after = [] /\
    calls_of "WaitForJobCompletion" after = 0 /\
    calls_of "GetJobStatus" after = 0.
Proof.
  exact (Finish_returns_other_values_unchanged Double.succeeding
           (Double.attribute Double.succeeding "GetInstances") [] []
           (Double.start Double.empty) (VList [])
           (mkWorld Double.empty
              [Print [Lit "Using method "; Lit "GetInstances"];
               Invoke "GetInstances" [] []])
           TypeError eq_refl eq_refl).
Defined.

(** The end-to-end scenario: [CreateInstance] returns "42", the wait
    reports success, the status is {"opresult": ["created-ok"]}. *)
Lemma created_ok_witness :
  exists w2,
    Finish Double.succeeding
      (Double.attribute Double.succeeding "CreateInstance") [] []
      (Double.start Double.empty) = (Ok (VStr "created-ok"), w2) /\
    cluster w2 = Double.empty.
Proof.
  exact (Finish_success_returns_first_opresult Double.succeeding
           (Double.attribute Double.succeeding "CreateInstance") [] []
           (Double.start Double.empty) (VStr "42")
           (mkWorld Double.empty
              [Print [Lit "Using method "; Lit "CreateInstance"];
               Invoke "CreateInstance" [] []])
           42%Z
           (Double.constant (Returns (VBool true)))
           (Double.constant (Returns (Double.opresult (VStr "created-ok"))))
           (VBool true) Double.empty
           (Double.opresult (VStr "created-ok")) Double.empty
           (VList [VStr "created-ok"]) (VStr "created-ok")
           eq_refl eq_refl eq_refl eq_refl eq_refl eq_refl eq_refl eq_refl
           eq_refl).
Defined.

Lemma failed_job_witness :
  Finish Double.failing
    (Double.attribute Double.failing "CreateInstance") [] []
    (Double.start Double.empty) =
  (Ok VNone,
   mkWorld Double.empty
     ([Print [Lit "Using method "; Lit "CreateInstance"];
       Invoke "CreateInstance" [] []] ++
      [Print [Lit "Using method "; Lit "WaitForJobCompletion"];
       Invoke "WaitForJobCompletion" [VStr "42"] [];
       Print [Lit "Using method "; Lit "GetJobStatus"];
       Invoke "GetJobStatus" [VStr "42"] [];
       Print [Lit "Error encountered while performing operation: "];
       Print [Lit "disk full"]])).
Proof.
  exact (Finish_failure_prints_payload_and_returns_None Double.failing
           (Double.attribute Double.failing "CreateInstance") [] []
           (Double.start Double.empty) (VStr "42")
           (mkWorld Double.empty
              [Print [Lit "Using method "; Lit "CreateInstance"];
               Invoke "CreateInstance" [] []])
           42%Z
           (Double.constant (Returns (VBool false)))
           (Double.constant (Returns (Double.opresult (VStr "disk full"))))
           (VBool false) Double.empty
           (Double.opresult (VStr "disk full")) Double.empty
           (VList [VStr "disk full"]) (VStr "disk full")
           eq_refl eq_refl eq_refl eq_refl eq_refl eq_refl eq_refl eq_refl
           eq_refl).
Defined.

(** C7 as the claim words it fails: in the report [Finish] prints for a
    failed "CreateInstance" job, no line shows the name of the operation.
    With the callable of the wrapper, the name is printed once, by the
    wrapper, before the operation is called; with the bound method of the
    client itself, it is printed nowhere. *)
Lemma failure_report_does_not_name_the_operation :
  (exists w1 report,
     call (Double.attribute Double.failing "CreateInstance") [] []
       (Double.start Double.empty) = (Ok (VStr "42"), w1) /\
     fst Double.failed_create = Ok VNone /\
     trace (snd Double.failed_create) = trace w1 ++ report /\
     printed report =
       [[Lit "Using method "; Lit "WaitForJobCompletion"];
        [Lit "Using method "; Lit "GetJobStatus"];
        [Lit "Error encountered while performing operation: "];
        [Lit "disk full"]] /\
     ~ exists l, In l (printed report) /\ mentions "CreateInstance" l = true) /\
  fst Double.failed_create_unwrapped = Ok VNone /\
  ~ exists l,
      In l (printed (trace (snd Double.failed_create_unwrapped))) /\
      mentions "CreateInstance" l = true.
Proof.
  split.
  - eexists _, _. split; [vm_compute; reflexivity|].
    split; [vm_compute; reflexivity|].
    split; [vm_compute; reflexivity|]. split; [reflexivity|].
    intros (l & Hin & Hm). simpl in Hin.
    destruct Hin as [<-|[<-|[<-|[<-|[]]]]]; discriminate Hm.
  - split; [vm_compute; reflexivity|].
    intros (l & Hin & Hm). vm_compute in Hin.
    destruct Hin as [<-|[<-|[<-|[<-|[]]]]]; discriminate Hm.
Qed.

Lemma status_missing_witness :
  exists w3,
    invoke Double.without_status "GetJobStatus" [VStr "42"] []
      (mkWorld Double.empty
         [Print [Lit "Using method "; Lit "CreateInstance"];
          Invoke "CreateInstance" [] [];
          Print [Lit "Using method "; Lit "WaitForJobCompletion"];
          Invoke "WaitForJobCompletion" [VStr "42"] []]) = (Ok VNone, w3) /\
    Finish Double.without_status
      (Double.attribute Double.without_status "CreateInstance") [] []
      (Double.start Double.empty) = (Raise TypeError, w3).
Proof.
  exact (Finish_raises_TypeError_without_status Double.without_status
           (Double.attribute Double.without_status "CreateInstance") [] []
           (Double.start Double.empty) (VStr "42")
           (mkWorld Double.empty
              [Print [Lit "Using method "; Lit "CreateInstance"];
               Invoke "CreateInstance" [] []])
           42%Z (VBool true)
           (mkWorld Double.empty
              [Print [Lit "Using method "; Lit "CreateInstance"];
               Invoke "CreateInstance" [] [];
               Print [Lit "Using method "; Lit "WaitForJobCompletion"];
               Invoke "WaitForJobCompletion" [VStr "42"] []])
           eq_refl eq_refl eq_refl (or_introl eq_refl)).
Defined.

(** The same with a [GetJobStatus] the server rejects. *)
Example status_rejected :
  fst (Finish Double.rejecting_status
         (Double.attribute Double.rejecting_status "CreateInstance") [] []
         (Double.start Double.empty)) = Raise TypeError.
Proof. reflexivity. Qed.

(** The tagging scenario on the tags of the cluster. *)
Lemma cluster_tags_witness :
  exists w',
    TestTags Double.succeeding
      (Double.attribute Double.succeeding "GetClusterTags")
      (Double.attribute Double.succeeding "AddClusterTags")
      (Double.attribute Double.succeeding "DeleteClusterTags") []
      (Double.start Double.empty) = (Ok tt, w') /\
    Double.cluster_tags (cluster w') = [] /\
    calls_of "GetClusterTags" (trace w') = 4 /\
    calls_of "AddClusterTags" (trace w') = 2 /\
    calls_of "DeleteClusterTags" (trace w') = 3.
Proof.
  assert (Hrun :
    TestTags Double.succeeding
      (Double.attribute Double.succeeding "GetClusterTags")
      (Double.attribute Double.succeeding "AddClusterTags")
      (Double.attribute Double.succeeding "DeleteClusterTags") []
      (Double.start Double.empty) =
    (Ok tt,
     snd (TestTags Double.succeeding
            (Double.attribute Double.succeeding "GetClusterTags")
            (Double.attribute Double.succeeding "AddClusterTags")
            (Double.attribute Double.succeeding "DeleteClusterTags") []
            (Double.start Double.empty)))) by (vm_compute; reflexivity).
  destruct (TestTags_calls_get_four_add_two_delete_three Double.succeeding
              "GetClusterTags" "AddClusterTags" "DeleteClusterTags"
              Double.GetClusterTags Double.AddClusterTags
              Double.DeleteClusterTags [] (Double.start Double.empty) _
              eq_refl eq_refl eq_refl
              ltac:(discriminate) ltac:(discriminate) ltac:(discriminate)
              Hrun)
    as (during & T & _ & Hg & Ha & Hd).
  eexists. split; [exact Hrun|].
  split; [vm_compute; reflexivity|].
  change (trace (Double.start Double.empty) ++ during) with during in T.
  rewrite T. repeat split; assumption.
Defined.

(** C3 as the claim words it fails: a full run on the tags of the cluster
    calls get four times, not five, and delete three times, not twice. *)
Lemma TestTags_does_not_call_get_five_times :
  fst Double.tagging_run = Ok tt /\
  calls_of "GetClusterTags" (trace (snd Double.tagging_run)) = 4 /\
  calls_of "DeleteClusterTags" (trace (snd Double.tagging_run)) = 3 /\
  ~ (calls_of "GetClusterTags" (trace (snd Double.tagging_run)) = 5 /\
     calls_of "AddClusterTags" (trace (snd Double.tagging_run)) = 2 /\
     calls_of "DeleteClusterTags" (trace (snd Double.tagging_run)) = 2).
Proof.
  split; [vm_compute; reflexivity|]. split; [vm_compute; reflexivity|].
  split; [vm_compute; reflexivity|].
  intros [H _]. vm_compute in H. discriminate H.
Qed.

(** Two instances left behind by an earlier run are removed. *)
Lemma two_instances_witness :
  exists w',
    RemoveAllInstances Double.succeeding
      (Double.start (Double.mkCluster ["web1"; "db1"] [] 0)) = (Ok tt, w') /\
    Double.instances (cluster w') = [].
Proof.
  apply (RemoveAllInstances_assertion_holds Double.succeeding Double.instances
           Double.GetInstances Double.DeleteInstance eq_refl eq_refl).
  - intros s. exists s. split; reflexivity.
  - intros w n _. eexists _, _. split; [reflexivity|].
    simpl. apply without_is_remove.
  - simpl. repeat constructor; simpl; intuition discriminate.
Defined.

(** The script started without the name of a configuration file. *)
Lemma no_argument_witness :
  Double.run_Main ["rapi-workload.py"] (Double.start Double.empty) =
    (Raise IndexError, mkWorld Double.empty [StderrWrite usage_text]).
Proof.
  unfold Double.run_Main.
  apply (Main_without_argument_raises_IndexError unit unit).
  simpl. lia.
Defined.

(** ** Further properties of the wrapper and of the resolver *)

Section FurtherProperties.

Context {S : Type}.
Implicit Types (w : @World S) (self client : @GanetiRapiClientWrapper S)
  (fn : @object S) (m : @method S) (attr : string) (v : value)
  (args : list value) (kw : kwargs).

(** X1.  A call through the wrapper to an operation the client has prints
    "Using method <name>", then runs the operation once, on the arguments
    and keyword arguments it was given.  A value returned comes back as it
    is, a [GanetiApiError] becomes [None] after one more line, and any other
    exception comes out of the wrapper unchanged. *)
Theorem wrapper_call_outcome self attr m args kw w :
  Py.startswith "_" attr = false ->
  _client self attr = Some m ->
  invoke self attr args kw w =
    (match fst (m args kw (cluster w)) with
     | Returns v => Ok v
     | Raises (GanetiApiError _) => Ok VNone
     | Raises e => Raise e
     end,
     mkWorld (snd (m args kw (cluster w)))
       (trace w ++
        Print [Lit "Using method "; Lit attr] :: Invoke attr args kw ::
        error_lines attr (fst (m args kw (cluster w))))).
Proof.
  intros H Hm. destruct (m args kw (cluster w)) as [[v|e] s'] eqn:Hr.
  - now rewrite (invoke_returns self attr m args kw w v s' H Hm Hr).
  - destruct (is_GanetiApiError e) eqn:He.
    + destruct e; try discriminate He.
      now rewrite (invoke_api_error self attr m args kw w _ s' H Hm Hr).
    + rewrite (invoke_other_error self attr m args kw w e s' H Hm Hr He).
      destruct e; try discriminate He; reflexivity.
Qed.

(** X2.  When the wait for a job breaks down on an exception that is no
    [GanetiApiError], [Finish] lets it out and stops there: the status of
    the job is never asked for. *)
Theorem Finish_stops_when_wait_breaks
    self fn args kw w v w1 n mwait e s2 :
  call fn args kw w = (Ok v, w1) ->
  Py.int v = inr n ->
  _client self "WaitForJobCompletion" = Some mwait ->
  mwait [v] [] (cluster w1) = (Raises e, s2) ->
  is_GanetiApiError e = false ->
  Finish self fn args kw w =
    (Raise e,
     mkWorld s2
       (trace w1 ++
        [Print [Lit "Using method "; Lit "WaitForJobCompletion"];
         Invoke "WaitForJobCompletion" [v] []])) /\
  calls_of "GetJobStatus" (trace (snd (Finish self fn args kw w))) =
    calls_of "GetJobStatus" (trace w1).
Proof.
  intros Hcall Hn Hw Ew He.
  assert (E : Finish self fn args kw w =
    (Raise e,
     mkWorld s2
       (trace w1 ++
        [Print [Lit "Using method "; Lit "WaitForJobCompletion"];
         Invoke "WaitForJobCompletion" [v] []]))).
  { rewrite (Finish_job_id self fn args kw w v w1 n Hcall Hn).
    unfold resolve_job.
    now rewrite (bind_Raise _ _ _ _ _
                   (invoke_other_error self "WaitForJobCompletion" mwait [v] []
                      w1 e s2 eq_refl Hw Ew He)). }
  split; [exact E|]. rewrite E. simpl snd. simpl trace.
  rewrite calls_of_app. unfold calls_of at 2. simpl. lia.
Qed.

(** X3.  A wait that the wrapper had to stand in for, because the client
    has no [WaitForJobCompletion] or because the call raised
    [GanetiApiError], counts as a failed job: whatever the status says,
    [Finish] prints the error report with its first "opresult" entry and
    returns [None]. *)
Theorem Finish_reports_failure_when_wait_is_absorbed
    self fn args kw w v w1 n s2 mstatus status s3 opresult result :
  call fn args kw w = (Ok v, w1) ->
  Py.int v = inr n ->
  (_client self "WaitForJobCompletion" = None /\ s2 = cluster w1 \/
   exists mwait detail,
     _client self "WaitForJobCompletion" = Some mwait /\
     mwait [v] [] (cluster w1) = (Raises (GanetiApiError detail), s2)) ->
  _client self "GetJobStatus" = Some mstatus ->
  mstatus [v] [] s2 = (Returns status, s3) ->
  Py.getitem status (VStr "opresult") = inr opresult ->
  Py.getitem opresult (VInt 0) = inr result ->
  exists w2,
    invoke self "WaitForJobCompletion" [v] [] w1 = (Ok VNone, w2) /\
    Finish self fn args kw w =
      (Ok VNone,
       mkWorld s3
         (trace w2 ++
          [Print [Lit "Using method "; Lit "GetJobStatus"];
           Invoke "GetJobStatus" [v] [];
           Print [Lit "Error encountered while performing operation: "];
           Print [str_ result]])).
Proof.
  intros Hcall Hn Hw Hs Es Ho Hr.
  rewrite (Finish_job_id self fn args kw w v w1 n Hcall Hn).
  unfold resolve_job.
  assert (exists w2,
            invoke self "WaitForJobCompletion" [v] [] w1 = (Ok VNone, w2) /\
            cluster w2 = s2) as (w2 & E1 & Hc).
  { destruct Hw as [[Hw ->] | (mwait & detail & Hw & Ew)].
    - rewrite (invoke_missing self "WaitForJobCompletion" [v] [] w1 eq_refl Hw).
      now eexists.
    - rewrite (invoke_api_error self "WaitForJobCompletion" mwait [v] [] w1
                 detail s2 eq_refl Hw Ew).
      now eexists. }
  exists w2. split; [exact E1|]. rewrite (bind_Ok _ _ _ _ _ E1).
  rewrite <- Hc in Es.
  rewrite (bind_Ok _ _ _ _ _
             (invoke_returns self "GetJobStatus" mstatus [v] [] w2 status s3
                eq_refl Hs Es)).
  unfold report_job, bind, lift. rewrite Ho. simpl. rewrite Hr. simpl.
  unfold print, emit, ret. simpl. now rewrite <- !app_assoc.
Qed.

(** X4.  [Finish] takes for a job id whatever [int()] accepts, a boolean
    included, and hands the value itself, not the integer read from it, to
    [WaitForJobCompletion]. *)
Theorem Finish_waits_for_whatever_int_accepts
    self fn args kw w v w1 n mwait :
  call fn args kw w = (Ok v, w1) ->
  Py.int v = inr n ->
  _client self "WaitForJobCompletion" = Some mwait ->
  exists r w2 after,
    Finish self fn args kw w = (r, w2) /\
    trace w2 =
      trace w1 ++
      Print [Lit "Using method "; Lit "WaitForJobCompletion"] ::
      Invoke "WaitForJobCompletion" [v] [] :: after.
Proof.
  intros Hcall Hn Hw.
  rewrite (Finish_job_id self fn args kw w v w1 n Hcall Hn).
  unfold resolve_job.
  destruct (invoke_exposed self "WaitForJobCompletion" mwait [v] [] w1
              eq_refl Hw) as (w2 & ls1 & E1 & _ & T1).
  destruct (absorbed (fst (mwait [v] [] (cluster w1)))) as [success|e].
  - rewrite (bind_Ok _ _ _ _ _ E1).
    destruct (invoke_cases self "GetJobStatus" [v] [] w2 eq_refl)
      as (r2 & w3 & d2 & E2 & T2 & _ & _).
    destruct r2 as [status|e2].
    + rewrite (bind_Ok _ _ _ _ _ E2).
      destruct (report_job_cases success status w3) as (r & ls3 & E3 & _).
      rewrite E3. eexists r, _, _. split; [reflexivity|]. simpl trace.
      rewrite T2, T1. unfold audit. rewrite <- ?app_assoc. simpl.
      rewrite <- ?app_assoc. reflexivity.
    + rewrite (bind_Raise _ _ _ _ _ E2). eexists _, _, _.
      split; [reflexivity|]. rewrite T2, T1. unfold audit.
      rewrite <- ?app_assoc. reflexivity.
  - rewrite (bind_Raise _ _ _ _ _ E1). eexists _, _, _.
    split; [reflexivity|]. rewrite T1. reflexivity.
Qed.

(** X5.  [Finish] on an operation the server rejects: the wrapper turns the
    [GanetiApiError] into [None], and [Finish] returns that [None] without a
    line of its own and without asking for any job. *)
Theorem Finish_of_rejected_operation self attr m args kw w detail s' :
  Py.startswith "_" attr = false ->
  _client self attr = Some m ->
  m args kw (cluster w) = (Raises (GanetiApiError detail), s') ->
  Finish_method self attr args kw w =
    (Ok VNone,
     mkWorld s'
       (trace w ++
        [Print [Lit "Using method "; Lit attr];
         Invoke attr args kw;
         Print [Lit "RAPI error while performing function "; Lit attr;
                Lit " : "; Lit detail]])).
Proof.
  intros H Hm Hr. unfold Finish_method.
  rewrite (bind_Ok _ _ _ _ _ (getattr_exposed self attr m w H Hm)).
  now rewrite (Finish_not_job_id self _ args kw w VNone _ TypeError
                 (proxy_call_api_error attr m args kw w detail s' Hr) eq_refl).
Qed.

(** X6.  [Finish] on an operation the client does not have: the lookup
    prints the "Missing method" line, the mock returns [None], and [Finish]
    returns it; the cluster is not touched and nothing is called. *)
Theorem Finish_of_missing_operation self attr args kw w :
  Py.startswith "_" attr = false ->
  _client self attr = None ->
  Finish_method self attr args kw w =
    (Ok VNone,
     mkWorld (cluster w)
       (trace w ++
        [Print [Lit "Missing method "; Lit attr;
                Lit "; supplying mock method"]])).
Proof.
  intros H Hm. unfold Finish_method.
  rewrite (bind_Ok _ _ _ _ _ (getattr_missing self attr w H Hm)).
  reflexivity.
Qed.

(** *** No RAPI error stops the workload *)

Lemma no_api_error_bind {A B} (c : @M S A) (k : A -> @M S B) :
  no_api_error c ->
  (forall a w w', c w = (Ok a, w') -> no_api_error (k a)) ->
  no_api_error (x <- c ;; k x).
Proof.
  intros Hc Hk w d. unfold bind. specialize (Hc w d).
  destruct (c w) as [[a|e] w'] eqn:E.
  - apply (Hk a w w' E).
  - simpl in *. intros [= ->]. now apply Hc.
Qed.

Lemma no_api_error_ret {A} (a : A) : no_api_error (@ret S A a).
Proof. intros w d. discriminate. Qed.

Lemma no_api_error_getattr self attr :
  Py.startswith "_" attr = false -> no_api_error (getattr self attr).
Proof.
  intros H w d. destruct (_client self attr) as [m|] eqn:Hm.
  - now rewrite (getattr_exposed self attr m w H Hm).
  - now rewrite (getattr_missing self attr w H Hm).
Qed.

Lemma no_api_error_invoke self attr args kw :
  Py.startswith "_" attr = false -> no_api_error (invoke self attr args kw).
Proof.
  intros H w d.
  destruct (invoke_cases self attr args kw w H) as (r & w' & dl & E & _ & _ & Hr).
  rewrite E. apply Hr.
Qed.

Lemma no_api_error_call self fn args kw :
  handed_out self fn -> no_api_error (call fn args kw).
Proof.
  intros (attr & w0 & w0' & H & Hfn) w d.
  destruct (_client self attr) as [m|] eqn:Hm.
  - rewrite (getattr_exposed self attr m w0 H Hm) in Hfn.
    injection Hfn as <- _.
    pose proof (invoke_cases self attr args kw w H) as (r & w' & d' & E & _ & _ & Hr).
    unfold invoke in E.
    rewrite (bind_Ok _ _ _ _ _ (getattr_exposed self attr m w H Hm)) in E.
    rewrite E. apply Hr.
  - rewrite (getattr_missing self attr w0 H Hm) in Hfn.
    injection Hfn as <- _. discriminate.
Qed.

Lemma no_api_error_Finish self fn args kw :
  handed_out self fn -> no_api_error (Finish self fn args kw).
Proof.
  intros (attr & w0 & w0' & H & Hfn) w d.
  apply (Finish_raises_no_api_error self attr fn w0 w0' args kw w H Hfn).
Qed.

Lemma no_api_error_Finish_method self attr args kw :
  Py.startswith "_" attr = false ->
  no_api_error (Finish_method self attr args kw).
Proof.
  intros H. unfold Finish_method. apply no_api_error_bind.
  - now apply no_api_error_getattr.
  - intros fn w w' E. apply no_api_error_Finish. now exists attr, w, w'.
Qed.

Lemma no_api_error_lift_getitem c k : no_api_error (@lift S _ (Py.getitem c k)).
Proof.
  intros w d. destruct (Py.getitem c k) as [e|x] eqn:E; simpl; [|discriminate].
  intros [= ->]. now apply getitem_error in E.
Qed.

Lemma no_api_error_for_each {A} (l : list A) (body : A -> @M S unit) :
  (forall x, no_api_error (body x)) -> no_api_error (for_each l body).
Proof.
  intros Hb. induction l as [|x l IH]; simpl.
  - apply no_api_error_ret.
  - apply no_api_error_bind; [apply Hb|]. intros _ _ _ _. exact IH.
Qed.

Lemma no_api_error_TestTags self get_fn add_fn delete_fn args :
  handed_out self get_fn ->
  handed_out self add_fn ->
  handed_out self delete_fn ->
  no_api_error (TestTags self get_fn add_fn delete_fn args).
Proof.
  intros Hg Ha Hd. unfold TestTags.
  repeat (apply no_api_error_bind;
          [ first [ now apply (no_api_error_call self)
                  | now apply no_api_error_Finish ]
          | intros ? ? ? _ ]).
  apply no_api_error_ret.
Qed.

Lemma no_api_error_TestGetters self : no_api_error (TestGetters self).
Proof.
  unfold TestGetters.
  repeat (apply no_api_error_bind;
          [ now apply no_api_error_invoke | intros ? ? ? _ ]).
  apply no_api_error_ret.
Qed.

Lemma no_api_error_RemoveAllInstances self :
  no_api_error (RemoveAllInstances self).
Proof.
  unfold RemoveAllInstances.
  apply no_api_error_bind; [now apply no_api_error_invoke|]. intros v ? ? _.
  apply no_api_error_bind.
  { intros ? ?. destruct v; simpl; discriminate. }
  intros items ? ? _.
  apply no_api_error_bind.
  { apply no_api_error_for_each. intros inst.
    apply no_api_error_bind; [now apply no_api_error_getattr|].
    intros fn wq wq' E.
    apply no_api_error_bind.
    - apply no_api_error_Finish. now exists "DeleteInstance", wq, wq'.
    - intros ? ? ? _. apply no_api_error_ret. }
  intros ? ? ? _.
  apply no_api_error_bind; [now apply no_api_error_invoke|]. intros v' ? ? _.
  apply no_api_error_bind.
  { intros ? ?. destruct v'; simpl; discriminate. }
  intros n ? ? _ ? ?. unfold assert. destruct (Z.eqb n 0); discriminate.
Qed.

Lemma no_api_error_TestSingleInstance self instance_name alternate_name
    node_one node_two :
  no_api_error
    (TestSingleInstance self instance_name alternate_name node_one node_two).
Proof.
  unfold TestSingleInstance.
  repeat (apply no_api_error_bind;
          [ first [ now apply no_api_error_Finish_method
                  | now apply no_api_error_invoke ]
          | intros ? ? ? _ ]).
  apply no_api_error_bind; [now apply no_api_error_getattr|].
  intros get_fn wg wg' Eg.
  apply no_api_error_bind; [now apply no_api_error_getattr|].
  intros add_fn wa wa' Ea.
  apply no_api_error_bind; [now apply no_api_error_getattr|].
  intros delete_fn wd wd' Ed.
  apply no_api_error_bind.
  { apply no_api_error_TestTags.
    - now exists "GetInstanceTags", wg, wg'.
    - now exists "AddInstanceTags", wa, wa'.
    - now exists "DeleteInstanceTags", wd, wd'. }
  intros ? ? ? _.
  repeat (apply no_api_error_bind;
          [ first [ now apply no_api_error_Finish_method
                  | now apply no_api_error_invoke ]
          | intros ? ? ? _ ]).
  apply no_api_error_ret.
Qed.

(** X7.  No [GanetiApiError] comes out of the scenarios, whatever the
    client raises and whichever operations it lacks: not out of
    [TestGetters], [RemoveAllInstances] or [TestSingleInstance], and not out
    of [TestTags] run on callables the wrapper handed out. *)
Theorem scenarios_raise_no_api_error self w detail :
  fst (TestGetters self w) <> Raise (GanetiApiError detail) /\
  fst (RemoveAllInstances self w) <> Raise (GanetiApiError detail) /\
  (forall instance_name alternate_name node_one node_two,
     fst (TestSingleInstance self instance_name alternate_name node_one
            node_two w) <> Raise (GanetiApiError detail)) /\
  (forall get_fn add_fn delete_fn args,
     handed_out self get_fn ->
     handed_out self add_fn ->
     handed_out self delete_fn ->
     fst (TestTags self get_fn add_fn delete_fn args w) <>
       Raise (GanetiApiError detail)).
Proof.
  split; [apply no_api_error_TestGetters|].
  split; [apply no_api_error_RemoveAllInstances|].
  split.
  - intros. apply no_api_error_TestSingleInstance.
  - intros. now apply no_api_error_TestTags.
Qed.

(** *** The read-only probe *)

Lemma invoke_total self attr args kw w :
  only_api_errors (_client self) ->
  Py.startswith "_" attr = false ->
  exists v w' during,
    invoke self attr args kw w = (Ok v, w') /\
    trace w' = trace w ++ during /\
    invocations during =
      if exposes (_client self) attr then [(attr, args, kw)] else [].
Proof.
  intros Hapi H. unfold exposes.
  destruct (_client self attr) as [m|] eqn:Hm.
  - destruct (m args kw (cluster w)) as [[v|e] s'] eqn:Hr.
    + rewrite (invoke_returns self attr m args kw w v s' H Hm Hr).
      eexists _, _, _. repeat split.
    + pose proof (Hapi attr m args kw (cluster w) e s' Hm Hr) as He.
      destruct e; try discriminate He.
      rewrite (invoke_api_error self attr m args kw w _ s' H Hm Hr).
      eexists _, _, _. repeat split.
  - rewrite (invoke_missing self attr args kw w H Hm).
    eexists _, _, _. repeat split.
Qed.

Lemma forwards_nothing self : forwards self (ret tt) [].
Proof. intros w. exists w, []. rewrite app_nil_r. repeat split. Qed.

Lemma forwards_invoke self attr args kw rest calls :
  only_api_errors (_client self) ->
  Py.startswith "_" attr = false ->
  forwards self rest calls ->
  forwards self (invoke self attr args kw ;; rest) ((attr, args, kw) :: calls).
Proof.
  intros Hapi H Hrest w.
  destruct (invoke_total self attr args kw w Hapi H) as (v & w1 & d1 & E1 & T1 & I1).
  destruct (Hrest w1) as (w2 & d2 & E2 & T2 & I2).
  exists w2, (d1 ++ d2). rewrite (bind_Ok _ _ _ _ _ E1).
  split; [exact E2|]. split.
  - now rewrite T2, T1, <- app_assoc.
  - rewrite invocations_app, I1, I2. cbn [filter].
    change (called (attr, args, kw)) with attr.
    destruct (exposes (_client self) attr); reflexivity.
Qed.

(** X8.  On a client whose operations raise nothing but [GanetiApiError],
    [TestGetters] runs to its end, and what reaches the client are the
    calls of its list that the client has, each once, in the order of the
    list; the others are answered by the mock. *)
Theorem TestGetters_forwards_what_the_client_has self w :
  only_api_errors (_client self) ->
  exists w' during,
    TestGetters self w = (Ok tt, w') /\
    trace w' = trace w ++ during /\
    invocations during =
      filter (fun call => exposes (_client self) (called call)) getter_calls.
Proof.
  intros Hapi. revert w. change (forwards self (TestGetters self) getter_calls).
  unfold TestGetters, getter_calls.
  repeat (apply forwards_invoke; [exact Hapi|reflexivity|]).
  apply forwards_nothing.
Qed.

(** *** Removing all instances, when the client cannot *)

(** X9.  When the wrapper has to stand in for [GetInstances], because the
    client lacks it or the server rejects it, [RemoveAllInstances] gets
    [None] for the list and raises [TypeError] on iterating over it;
    nothing is deleted. *)
Theorem RemoveAllInstances_needs_the_list self w :
  (_client self "GetInstances" = None \/
   exists m detail,
     _client self "GetInstances" = Some m /\
     fst (m [] [] (cluster w)) = Raises (GanetiApiError detail)) ->
  fst (RemoveAllInstances self w) = Raise TypeError /\
  calls_of "DeleteInstance" (trace (snd (RemoveAllInstances self w))) =
    calls_of "DeleteInstance" (trace w).
Proof.
  intros Hg. unfold RemoveAllInstances.
  destruct Hg as [Hg | (m & detail & Hg & Eg)].
  - rewrite (bind_Ok _ _ _ _ _
               (invoke_missing self "GetInstances" [] [] w eq_refl Hg)).
    split; [reflexivity|]. simpl. rewrite calls_of_app.
    unfold calls_of at 2. simpl. lia.
  - destruct (m [] [] (cluster w)) as [o s'] eqn:E. simpl in Eg. subst o.
    rewrite (bind_Ok _ _ _ _ _
               (invoke_api_error self "GetInstances" m [] [] w detail s'
                  eq_refl Hg E)).
    split; [reflexivity|]. simpl. rewrite calls_of_app.
    unfold calls_of at 2. simpl. lia.
Qed.

Lemma only_printed_refl w : only_printed w w.
Proof. split; [reflexivity|]. exists []. simpl. now rewrite app_nil_r. Qed.

Lemma only_printed_trans w1 w2 w3 :
  only_printed w1 w2 -> only_printed w2 w3 -> only_printed w1 w3.
Proof.
  intros [C1 [l1 T1]] [C2 [l2 T2]]. split; [congruence|].
  exists (l1 ++ l2). now rewrite T2, T1, map_app, app_assoc.
Qed.

Lemma only_printed_emit w l : only_printed w (emit (Print l) w).
Proof. split; [reflexivity|]. now exists [l]. Qed.

Lemma only_printed_invocations w w' :
  only_printed w w' -> invocations (trace w') = invocations (trace w).
Proof.
  intros [_ [ls T]]. rewrite T, invocations_app, invocations_prints.
  apply app_nil_r.
Qed.

Lemma prints_only_bind {A B} (c : @M S A) (k : A -> @M S B) :
  prints_only c ->
  (forall a w w', c w = (Ok a, w') -> prints_only (k a)) ->
  prints_only (x <- c ;; k x).
Proof.
  intros Hc Hk w. destruct (Hc w) as (a & w1 & E1 & P1).
  destruct (Hk a w w1 E1 w1) as (b & w2 & E2 & P2).
  exists b, w2. rewrite (bind_Ok _ _ _ _ _ E1).
  split; [exact E2|]. now apply (only_printed_trans w w1 w2).
Qed.

Lemma prints_only_ret {A} (a : A) : prints_only (@ret S A a).
Proof. intros w. exists a, w. split; [reflexivity|apply only_printed_refl]. Qed.

Lemma prints_only_getattr_missing self attr :
  Py.startswith "_" attr = false ->
  _client self attr = None ->
  prints_only (getattr self attr) /\
  forall fn w w', getattr self attr w = (Ok fn, w') -> fn = Callable MockMethod.
Proof.
  intros H Hm. split.
  - intros w. rewrite (getattr_missing self attr w H Hm).
    eexists _, _. split; [reflexivity|apply only_printed_emit].
  - intros fn w w'. rewrite (getattr_missing self attr w H Hm).
    now intros [= <- _].
Qed.

Lemma prints_only_invoke_missing self attr args kw :
  Py.startswith "_" attr = false ->
  _client self attr = None ->
  prints_only (invoke self attr args kw).
Proof.
  intros H Hm w. rewrite (invoke_missing self attr args kw w H Hm).
  eexists _, _. split; [reflexivity|apply only_printed_emit].
Qed.

Lemma prints_only_Finish_mock self args kw :
  prints_only (Finish self (Callable MockMethod) args kw).
Proof.
  intros w. exists VNone, w. split; [reflexivity|apply only_printed_refl].
Qed.

Lemma prints_only_Finish_method_missing self attr args kw :
  Py.startswith "_" attr = false ->
  _client self attr = None ->
  prints_only (Finish_method self attr args kw).
Proof.
  intros H Hm w. unfold Finish_method.
  rewrite (bind_Ok _ _ _ _ _ (getattr_missing self attr w H Hm)).
  eexists _, _. split; [reflexivity|]. apply only_printed_emit.
Qed.

Lemma prints_only_TestTags_mock self args :
  prints_only
    (TestTags self (Callable MockMethod) (Callable MockMethod)
       (Callable MockMethod) args).
Proof.
  unfold TestTags.
  repeat (apply prints_only_bind;
          [ first [ apply prints_only_Finish_mock
                  | apply (prints_only_ret VNone) ]
          | intros ? ? ? _ ]).
  apply prints_only_ret.
Qed.

(** X10.  On a client that has none of the operations, the whole instance
    scenario still runs to its end: every step is answered by the mock,
    nothing reaches the client and the cluster is as it was. *)
Theorem TestSingleInstance_runs_without_any_operation
    self instance_name alternate_name node_one node_two w :
  (forall attr, _client self attr = None) ->
  exists w',
    TestSingleInstance self instance_name alternate_name node_one node_two w =
      (Ok tt, w') /\
    cluster w' = cluster w /\
    invocations (trace w') = invocations (trace w).
Proof.
  intros Hnone.
  assert (P : prints_only
                (TestSingleInstance self instance_name alternate_name node_one
                   node_two)).
  { unfold TestSingleInstance.
    repeat (apply prints_only_bind;
            [ first [ now apply prints_only_Finish_method_missing
                    | now apply prints_only_invoke_missing ]
            | intros ? ? ? _ ]).
    apply prints_only_bind;
      [now apply (prints_only_getattr_missing self "GetInstanceTags")|].
    intros get_fn wg wg' Eg.
    apply (prints_only_getattr_missing self "GetInstanceTags" eq_refl
             (Hnone _)) in Eg. subst get_fn.
    apply prints_only_bind;
      [now apply (prints_only_getattr_missing self "AddInstanceTags")|].
    intros add_fn wa wa' Ea.
    apply (prints_only_getattr_missing self "AddInstanceTags" eq_refl
             (Hnone _)) in Ea. subst add_fn.
    apply prints_only_bind;
      [now apply (prints_only_getattr_missing self "DeleteInstanceTags")|].
    intros delete_fn wd wd' Ed.
    apply (prints_only_getattr_missing self "DeleteInstanceTags" eq_refl
             (Hnone _)) in Ed. subst delete_fn.
    apply prints_only_bind; [apply prints_only_TestTags_mock|].
    intros ? ? ? _.
    repeat (apply prints_only_bind;
            [ first [ now apply prints_only_Finish_method_missing
                    | now apply prints_only_invoke_missing ]
            | intros ? ? ? _ ]).
    apply prints_only_ret. }
  destruct (P w) as ([] & w' & E & Hp). exists w'. split; [exact E|].
  split; [apply Hp|now apply only_printed_invocations].
Qed.

Section CannotDelete.

Variable self : @GanetiRapiClientWrapper S.
Variable insts : S -> list string.
Variable mget : @method S.

Hypothesis has_GetInstances : _client self "GetInstances" = Some mget.
Hypothesis lacks_DeleteInstance : _client self "DeleteInstance" = None.

Hypothesis GetInstances_lists : forall s,
  exists s',
    mget [] [] s = (Returns (VList (map VStr (insts s))), s') /\
    insts s' = insts s.

Lemma mock_deletion_loop (items : list value) :
  prints_only
    (for_each items
       (fun inst =>
          fn <- getattr self "DeleteInstance" ;;
          Finish self fn [inst] [] ;;
          ret tt)).
Proof.
  induction items as [|inst items IH]; simpl.
  - apply prints_only_ret.
  - apply prints_only_bind; [|intros _ _ _ _; exact IH].
    apply prints_only_bind;
      [now apply (prints_only_getattr_missing self "DeleteInstance")|].
    intros fn wq wq' E.
    apply (prints_only_getattr_missing self "DeleteInstance" eq_refl
             lacks_DeleteInstance) in E. subst fn.
    apply prints_only_bind; [apply prints_only_Finish_mock|].
    intros _ _ _ _. apply prints_only_ret.
Qed.

(** X11.  On a client that lists instances and has no [DeleteInstance],
    every deletion is answered by the mock; with an instance on the cluster,
    the second listing is not empty and [RemoveAllInstances] ends in
    [AssertionError]. *)
Theorem RemoveAllInstances_fails_when_nothing_is_deleted w :
  insts (cluster w) <> [] ->
  fst (RemoveAllInstances self w) = Raise AssertionError /\
  insts (cluster (snd (RemoveAllInstances self w))) = insts (cluster w).
Proof.
  intros Hne. unfold RemoveAllInstances.
  destruct (GetInstances_lists (cluster w)) as (s1 & Eg & Hi).
  rewrite (bind_Ok _ _ _ _ _
             (invoke_returns self "GetInstances" mget [] [] w _ s1 eq_refl
                has_GetInstances Eg)).
  set (w1 := mkWorld s1 _).
  rewrite (bind_Ok _ _ w1 (map VStr (insts (cluster w))) w1 eq_refl).
  destruct (mock_deletion_loop (map VStr (insts (cluster w))) w1)
    as ([] & w2 & Eloop & [Hc _]).
  rewrite (bind_Ok _ _ _ _ _ Eloop).
  destruct (GetInstances_lists (cluster w2)) as (s3 & Eg' & Hi').
  rewrite (bind_Ok _ _ _ _ _
             (invoke_returns self "GetInstances" mget [] [] w2 _ s3 eq_refl
                has_GetInstances Eg')).
  assert (Hsame : insts (cluster w2) = insts (cluster w)).
  { rewrite Hc. unfold w1. simpl. exact Hi. }
  rewrite Hsame. destruct (insts (cluster w)) as [|x l] eqn:El; [congruence|].
  unfold bind, lift, Py.len, assert. simpl List.length.
  replace (Z.of_nat (Datatypes.S (List.length (map VStr l))) =? 0)%Z with false
    by (symmetry; apply Z.eqb_neq; lia).
  simpl. split; [reflexivity|]. rewrite Hi'. exact Hsame.
Qed.

End CannotDelete.

(** *** The tags after the tagging scenario *)

Section TagsRestored.

Variable self : @GanetiRapiClientWrapper S.
Variables get_fn add_fn delete_fn : @object S.
Variable args : list value.
Variable tagset : S -> list string.

(** Reading the tags changes none. *)
Hypothesis get_reads : forall w,
  exists r w',
    call get_fn args [] w = (Ok r, w') /\
    tagset (cluster w') = tagset (cluster w).

(** A dry run, of an addition or of a deletion, changes none either. *)
Hypothesis add_dry_run : forall w ts,
  exists r w',
    Finish self add_fn args
      [("tags", VList (map VStr ts)); ("dry_run", VBool true)] w = (Ok r, w') /\
    tagset (cluster w') = tagset (cluster w).

Hypothesis delete_dry_run : forall w ts,
  exists r w',
    Finish self delete_fn args
      [("tags", VList (map VStr ts)); ("dry_run", VBool true)] w = (Ok r, w') /\
    tagset (cluster w') = tagset (cluster w).

(** An addition adds the tags it names, a deletion removes them. *)
Hypothesis add_adds : forall w ts,
  exists r w',
    Finish self add_fn args [("tags", VList (map VStr ts))] w = (Ok r, w') /\
    forall x, In x (tagset (cluster w')) <->
              In x (tagset (cluster w)) \/ In x ts.

Hypothesis delete_removes : forall w ts,
  exists r w',
    Finish self delete_fn args [("tags", VList (map VStr ts))] w = (Ok r, w') /\
    forall x, In x (tagset (cluster w')) <->
              In x (tagset (cluster w)) /\ ~ In x ts.

(** X12.  On a cluster where additions add, deletions remove and dry runs
    change nothing, [TestTags] runs to its end and leaves the entity with
    the tags it had, "tag1", "tag2" and "tag3" apart: an entity that had
    none of the three has its own tags back. *)
Theorem TestTags_leaves_the_tags_as_they_were w :
  exists w',
    TestTags self get_fn add_fn delete_fn args w = (Ok tt, w') /\
    forall x,
      In x (tagset (cluster w')) <->
      In x (tagset (cluster w)) /\ ~ In x ["tag1"; "tag2"; "tag3"].
Proof.
  unfold TestTags.
  change (VList tags) with (VList (map VStr ["tag1"; "tag2"; "tag3"])).
  change (VList (firstn 1 tags)) with (VList (map VStr ["tag1"])).
  change (VList (skipn 1 tags)) with (VList (map VStr ["tag2"; "tag3"])).
  destruct (get_reads w) as (r1 & w1 & E1 & H1).
  rewrite (bind_Ok _ _ _ _ _ E1).
  destruct (add_dry_run w1 ["tag1"; "tag2"; "tag3"]) as (r2 & w2 & E2 & H2).
  rewrite (bind_Ok _ _ _ _ _ E2).
  destruct (add_adds w2 ["tag1"; "tag2"; "tag3"]) as (r3 & w3 & E3 & H3).
  rewrite (bind_Ok _ _ _ _ _ E3).
  destruct (get_reads w3) as (r4 & w4 & E4 & H4).
  rewrite (bind_Ok _ _ _ _ _ E4).
  destruct (delete_dry_run w4 ["tag1"]) as (r5 & w5 & E5 & H5).
  rewrite (bind_Ok _ _ _ _ _ E5).
  destruct (delete_removes w5 ["tag1"]) as (r6 & w6 & E6 & H6).
  rewrite (bind_Ok _ _ _ _ _ E6).
  destruct (get_reads w6) as (r7 & w7 & E7 & H7).
  rewrite (bind_Ok _ _ _ _ _ E7).
  destruct (delete_removes w7 ["tag2"; "tag3"]) as (r8 & w8 & E8 & H8).
  rewrite (bind_Ok _ _ _ _ _ E8).
  destruct (get_reads w8) as (r9 & w9 & E9 & H9).
  rewrite (bind_Ok _ _ _ _ _ E9).
  exists w9. split; [reflexivity|]. intros x.
  rewrite H9, H8, H7, H6, H5, H4, H3, H2, H1. simpl. tauto.
Qed.

End TagsRestored.

(** *** The whole workload *)

Section Orchestrated.

Variables Node Instance : Type.
Variable primary : Node -> string.
Variable name : Instance -> string.
Variable Node_Release : Node -> @M S unit.
Variable Instance_Release : Instance -> @M S unit.
Variable qa_config_Load : string -> @M S unit.
Variable qa_config_AcquireNode : @M S Node.
Variable qa_config_AcquireManyNodes : Z -> @M S (list Node).
Variable qa_config_ReleaseManyNodes : list Node -> @M S unit.
Variable qa_config_AcquireInstance : @M S Instance.
Variable qa_node_TestNodeAddAll : @M S unit.
Variable qa_node_TestNodeRemoveAll : @M S unit.
Variable qa_rapi_LookupRapiSecret : string -> @M S string.
Variable qa_rapi_Setup : string -> string -> @M S (@RapiClient S).

(** The QA modules raise no [GanetiApiError] of their own. *)
Hypothesis Node_Release_ok : forall n, no_api_error (Node_Release n).
Hypothesis Instance_Release_ok : forall i, no_api_error (Instance_Release i).
Hypothesis Load_ok : forall f, no_api_error (qa_config_Load f).
Hypothesis AcquireNode_ok : no_api_error qa_config_AcquireNode.
Hypothesis AcquireManyNodes_ok : forall n,
  no_api_error (qa_config_AcquireManyNodes n).
Hypothesis ReleaseManyNodes_ok : forall l,
  no_api_error (qa_config_ReleaseManyNodes l).
Hypothesis AcquireInstance_ok : no_api_error qa_config_AcquireInstance.
Hypothesis TestNodeAddAll_ok : no_api_error qa_node_TestNodeAddAll.
Hypothesis TestNodeRemoveAll_ok : no_api_error qa_node_TestNodeRemoveAll.
Hypothesis LookupRapiSecret_ok : forall u,
  no_api_error (qa_rapi_LookupRapiSecret u).
Hypothesis Setup_ok : forall u p, no_api_error (qa_rapi_Setup u p).

Lemma no_api_error_item {A} (l : list A) (i : Z) : no_api_error (@item S A l i).
Proof.
  intros w d. unfold item. destruct (Py.position i (List.length l)) as [n|].
  - destruct (nth_error l n); discriminate.
  - discriminate.
Qed.

Lemma no_api_error_Workload client :
  no_api_error
    (Workload Node Instance primary name Node_Release Instance_Release
       qa_config_AcquireNode qa_config_AcquireManyNodes
       qa_config_ReleaseManyNodes qa_config_AcquireInstance client).
Proof.
  unfold Workload.
  apply no_api_error_bind; [apply no_api_error_TestGetters|]. intros ? ? ? _.
  apply no_api_error_bind; [now apply no_api_error_Finish_method|].
  intros ? ? ? _.
  apply no_api_error_bind; [now apply no_api_error_getattr|].
  intros get_fn wg wg' Eg.
  apply no_api_error_bind; [now apply no_api_error_getattr|].
  intros add_fn wa wa' Ea.
  apply no_api_error_bind; [now apply no_api_error_getattr|].
  intros delete_fn wd wd' Ed.
  apply no_api_error_bind.
  { apply no_api_error_TestTags.
    - now exists "GetClusterTags", wg, wg'.
    - now exists "AddClusterTags", wa, wa'.
    - now exists "DeleteClusterTags", wd, wd'. }
  intros ? ? ? _.
  apply no_api_error_bind; [apply AcquireNode_ok|]. intros node ? ? _.
  apply no_api_error_bind; [now apply no_api_error_getattr|].
  intros get_fn' wg2 wg2' Eg2.
  apply no_api_error_bind; [now apply no_api_error_getattr|].
  intros add_fn' wa2 wa2' Ea2.
  apply no_api_error_bind; [now apply no_api_error_getattr|].
  intros delete_fn' wd2 wd2' Ed2.
  apply no_api_error_bind.
  { apply no_api_error_TestTags.
    - now exists "GetNodeTags", wg2, wg2'.
    - now exists "AddNodeTags", wa2, wa2'.
    - now exists "DeleteNodeTags", wd2, wd2'. }
  intros ? ? ? _.
  apply no_api_error_bind; [apply Node_Release_ok|]. intros ? ? ? _.
  apply no_api_error_bind; [apply no_api_error_RemoveAllInstances|].
  intros ? ? ? _.
  apply no_api_error_bind; [apply AcquireManyNodes_ok|]. intros nodes ? ? _.
  apply no_api_error_bind; [apply AcquireInstance_ok|]. intros one ? ? _.
  apply no_api_error_bind; [apply AcquireInstance_ok|]. intros two ? ? _.
  apply no_api_error_bind; [apply no_api_error_item|]. intros n1 ? ? _.
  apply no_api_error_bind; [apply no_api_error_item|]. intros n2 ? ? _.
  apply no_api_error_bind; [apply no_api_error_TestSingleInstance|].
  intros ? ? ? _.
  apply no_api_error_bind; [apply Instance_Release_ok|]. intros ? ? ? _.
  apply no_api_error_bind; [apply Instance_Release_ok|]. intros ? ? ? _.
  apply ReleaseManyNodes_ok.
Qed.

(** X13.  As long as the QA modules raise no [GanetiApiError] of their own,
    none comes out of [Workload] or of [Main], whatever the client lacks or
    the server rejects: every RAPI error is absorbed on the way. *)
Theorem Workload_and_Main_raise_no_api_error w detail :
  (forall client,
     fst (Workload Node Instance primary name Node_Release Instance_Release
            qa_config_AcquireNode qa_config_AcquireManyNodes
            qa_config_ReleaseManyNodes qa_config_AcquireInstance client w) <>
       Raise (GanetiApiError detail)) /\
  (forall argv,
     fst (Main Node Instance primary name Node_Release Instance_Release
            qa_config_Load qa_config_AcquireNode qa_config_AcquireManyNodes
            qa_config_ReleaseManyNodes qa_config_AcquireInstance
            qa_node_TestNodeAddAll qa_node_TestNodeRemoveAll
            qa_rapi_LookupRapiSecret qa_rapi_Setup argv w) <>
       Raise (GanetiApiError detail)).
Proof.
  split.
  - intros client. apply no_api_error_Workload.
  - intros argv. revert w detail.
    change (no_api_error
              (Main Node Instance primary name Node_Release Instance_Release
                 qa_config_Load qa_config_AcquireNode
                 qa_config_AcquireManyNodes qa_config_ReleaseManyNodes
                 qa_config_AcquireInstance qa_node_TestNodeAddAll
                 qa_node_TestNodeRemoveAll qa_rapi_LookupRapiSecret
                 qa_rapi_Setup argv)).
    unfold Main.
    apply no_api_error_bind.
    { intros w d. destruct (Nat.ltb (List.length argv) 2); discriminate. }
    intros ? ? ? _.
    apply no_api_error_bind; [apply no_api_error_item|]. intros f ? ? _.
    apply no_api_error_bind; [apply Load_ok|]. intros ? ? ? _.
    apply no_api_error_bind; [apply TestNodeAddAll_ok|]. intros ? ? ? _.
    apply no_api_error_bind.
    { unfold __init__.
      apply no_api_error_bind; [apply LookupRapiSecret_ok|]. intros p ? ? _.
      apply no_api_error_bind; [apply Setup_ok|]. intros c ? ? _.
      apply no_api_error_ret. }
    intros client ? ? _.
    apply no_api_error_bind; [apply no_api_error_Workload|]. intros ? ? ? _.
    apply TestNodeRemoveAll_ok.
Qed.

End Orchestrated.

(** X14.  What [Finish] prints about a value that is no job id: nothing
    when the value is [None], which is what the wrapper returns for a
    failure, and otherwise the one line "Finish called with a method not
    producing a job id, returning <value>". *)
Theorem Finish_logs_values_that_are_no_job_id self fn args kw w v w1 e :
  call fn args kw w = (Ok v, w1) ->
  Py.int v = inl e ->
  printed (trace (snd (Finish self fn args kw w))) =
    printed (trace w1) ++
    match v with
    | VNone => []
    | _ => [[Lit "Finish called with a method not producing a job id, returning ";
             str_ v]]
    end.
Proof.
  intros Hcall He.
  rewrite (Finish_not_job_id self fn args kw w v w1 e Hcall He).
  assert (Happ : forall l, printed (trace w1 ++ [Print l]) = printed (trace w1) ++ [l]).
  { intros l. induction (trace w1) as [|ev t IH]; simpl; [reflexivity|].
    destruct ev; simpl; now rewrite IH. }
  destruct v; simpl; try apply Happ. now rewrite app_nil_r.
Qed.

End FurtherProperties.

(** ** The further properties on the test double *)

Lemma wrapper_call_witness :
  invoke Double.succeeding "GetInstances" [] [("bulk", VBool true)]
    (Double.start (Double.mkCluster ["web1"] [] 0)) =
  (Ok (VList [VStr "web1"]),
   mkWorld (Double.mkCluster ["web1"] [] 0)
     [Print [Lit "Using method "; Lit "GetInstances"];
      Invoke "GetInstances" [] [("bulk", VBool true)]]).
Proof.
  exact (wrapper_call_outcome Double.succeeding "GetInstances"
           Double.GetInstances [] [("bulk", VBool true)]
           (Double.start (Double.mkCluster ["web1"] [] 0)) eq_refl eq_refl).
Defined.

Lemma wait_breaks_witness :
  Finish Double.crashing_wait
    (Double.attribute Double.crashing_wait "CreateInstance") [] []
    (Double.start Double.empty) =
  (Raise (OtherError "connection reset"),
   mkWorld Double.empty
     ([Print [Lit "Using method "; Lit "CreateInstance"];
       Invoke "CreateInstance" [] []] ++
      [Print [Lit "Using method "; Lit "WaitForJobCompletion"];
       Invoke "WaitForJobCompletion" [VStr "42"] []])).
Proof.
  exact (proj1
    (Finish_stops_when_wait_breaks Double.crashing_wait
       (Double.attribute Double.crashing_wait "CreateInstance") [] []
       (Double.start Double.empty) (VStr "42")
       (mkWorld Double.empty
          [Print [Lit "Using method "; Lit "CreateInstance"];
           Invoke "CreateInstance" [] []])
       42%Z (Double.constant (Raises (OtherError "connection reset")))
       (OtherError "connection reset") Double.empty
       eq_refl eq_refl eq_refl eq_refl eq_refl)).
Defined.

Lemma absorbed_wait_witness :
  exists w2,
    invoke Double.without_wait "WaitForJobCompletion" [VStr "42"] []
      (mkWorld Double.empty
         [Print [Lit "Using method "; Lit "CreateInstance"];
          Invoke "CreateInstance" [] []]) = (Ok VNone, w2) /\
    Finish Double.without_wait
      (Double.attribute Double.without_wait "CreateInstance") [] []
      (Double.start Double.empty) =
      (Ok VNone,
       mkWorld Double.empty
         (trace w2 ++
          [Print [Lit "Using method "; Lit "GetJobStatus"];
           Invoke "GetJobStatus" [VStr "42"] [];
           Print [Lit "Error encountered while performing operation: "];
           Print [Lit "created-ok"]])).
Proof.
  exact (Finish_reports_failure_when_wait_is_absorbed Double.without_wait
           (Double.attribute Double.without_wait "CreateInstance") [] []
           (Double.start Double.empty) (VStr "42")
           (mkWorld Double.empty
              [Print [Lit "Using method "; Lit "CreateInstance"];
               Invoke "CreateInstance" [] []])
           42%Z Double.empty
           (Double.constant (Returns (Double.opresult (VStr "created-ok"))))
           (Double.opresult (VStr "created-ok")) Double.empty
           (VList [VStr "created-ok"]) (VStr "created-ok")
           eq_refl eq_refl (or_introl (conj eq_refl eq_refl)) eq_refl eq_refl
           eq_refl eq_refl).
Defined.

(** An operation that answers [True] is waited for as job [True]. *)
Lemma boolean_job_id_witness :
  exists r w2 after,
    Finish Double.succeeding
      (proxy_method "Ping" (Double.constant (Returns (VBool true)))) [] []
      (Double.start Double.empty) = (r, w2) /\
    trace w2 =
      [Print [Lit "Using method "; Lit "Ping"]; Invoke "Ping" [] []] ++
      Print [Lit "Using method "; Lit "WaitForJobCompletion"] ::
      Invoke "WaitForJobCompletion" [VBool true] [] :: after.
Proof.
  exact (Finish_waits_for_whatever_int_accepts Double.succeeding
           (proxy_method "Ping" (Double.constant (Returns (VBool true)))) [] []
           (Double.start Double.empty) (VBool true)
           (mkWorld Double.empty
              [Print [Lit "Using method "; Lit "Ping"]; Invoke "Ping" [] []])
           1%Z (Double.constant (Returns (VBool true)))
           eq_refl eq_refl eq_refl).
Defined.

Lemma rejected_operation_witness :
  Finish_method Double.succeeding "DeleteInstance" [] []
    (Double.start Double.empty) =
  (Ok VNone,
   mkWorld Double.empty
     [Print [Lit "Using method "; Lit "DeleteInstance"];
      Invoke "DeleteInstance" [] [];
      Print [Lit "RAPI error while performing function ";
             Lit "DeleteInstance"; Lit " : "; Lit "400 Bad Request"]]).
Proof.
  exact (Finish_of_rejected_operation Double.succeeding "DeleteInstance"
           Double.DeleteInstance [] [] (Double.start Double.empty)
           "400 Bad Request" Double.empty eq_refl eq_refl eq_refl).
Defined.

Lemma missing_operation_Finish_witness :
  Finish_method Double.succeeding "RedistributeConfig" [] []
    (Double.start Double.empty) =
  (Ok VNone,
   mkWorld Double.empty
     [Print [Lit "Missing method "; Lit "RedistributeConfig";
             Lit "; supplying mock method"]]).
Proof.
  exact (Finish_of_missing_operation Double.succeeding "RedistributeConfig"
           [] [] (Double.start Double.empty) eq_refl eq_refl).
Defined.

Lemma not_a_job_id_witness :
  printed
    (trace (snd (Finish Double.succeeding
                   (Double.attribute Double.succeeding "GetInstances") [] []
                   (Double.start Double.empty)))) =
  [[Lit "Using method "; Lit "GetInstances"]] ++
  [[Lit "Finish called with a method not producing a job id, returning ";
    Shown (VList [])]].
Proof.
  exact (Finish_logs_values_that_are_no_job_id Double.succeeding
           (Double.attribute Double.succeeding "GetInstances") [] []
           (Double.start Double.empty) (VList [])
           (mkWorld Double.empty
              [Print [Lit "Using method "; Lit "GetInstances"];
               Invoke "GetInstances" [] []])
           TypeError eq_refl eq_refl).
Defined.

Lemma probing_raises_only_api_errors :
  only_api_errors (_client Double.probing).
Proof.
  intros attr m args kw s e s' Hm Hr. simpl in Hm.
  destruct (String.eqb attr "GetVersion").
  - injection Hm as <-. discriminate Hr.
  - destruct (String.eqb attr "GetInstances"); [|discriminate Hm].
    injection Hm as <-. discriminate Hr.
Qed.

(** The probe on a client that has only [GetVersion] and [GetInstances]:
    one call of the first, two of the second, plain and bulk. *)
Lemma probing_witness :
  exists w' during,
    TestGetters Double.probing (Double.start Double.empty) = (Ok tt, w') /\
    trace w' = during /\
    invocations during =
      [("GetVersion", [], []);
       ("GetInstances", [], []);
       ("GetInstances", [], [("bulk", VBool true)])].
Proof.
  exact (TestGetters_forwards_what_the_client_has Double.probing
           (Double.start Double.empty) probing_raises_only_api_errors).
Defined.

Lemma no_instance_list_witness :
  fst (RemoveAllInstances Double.bare (Double.start Double.empty)) =
    Raise TypeError /\
  calls_of "DeleteInstance"
    (trace (snd (RemoveAllInstances Double.bare (Double.start Double.empty)))) =
    calls_of "DeleteInstance" (trace (Double.start Double.empty)).
Proof.
  exact (RemoveAllInstances_needs_the_list Double.bare
           (Double.start Double.empty) (or_introl eq_refl)).
Defined.

Lemma no_operation_witness :
  exists w',
    TestSingleInstance Double.bare "web1.example.com" "web2.example.com"
      "node1.example.com" "node2.example.com"
      (Double.start (Double.mkCluster ["db1"] [] 0)) = (Ok tt, w') /\
    cluster w' = Double.mkCluster ["db1"] [] 0 /\
    invocations (trace w') = [].
Proof.
  exact (TestSingleInstance_runs_without_any_operation Double.bare
           "web1.example.com" "web2.example.com" "node1.example.com"
           "node2.example.com" (Double.start (Double.mkCluster ["db1"] [] 0))
           (fun _ => eq_refl)).
Defined.

Lemma nothing_deleted_witness :
  fst (RemoveAllInstances Double.listing
         (Double.start (Double.mkCluster ["web1"] [] 0))) =
    Raise AssertionError /\
  Double.instances
    (cluster (snd (RemoveAllInstances Double.listing
                     (Double.start (Double.mkCluster ["web1"] [] 0))))) =
    ["web1"].
Proof.
  apply (RemoveAllInstances_fails_when_nothing_is_deleted Double.listing
           Double.instances Double.GetInstances eq_refl eq_refl).
  - intros s. exists s. split; reflexivity.
  - discriminate.
Defined.

Lemma names_of_strings (ts : list string) :
  Double.names (Some (VList (map VStr ts))) = ts.
Proof.
  unfold Double.names. induction ts as [|t ts IH]; simpl; [reflexivity|].
  now rewrite IH.
Qed.

Lemma in_without x (gone l : list string) :
  In x (Double.without gone l) <-> In x l /\ ~ In x gone.
Proof.
  unfold Double.without. rewrite filter_In. split.
  - intros [Hx Hn]. split; [assumption|]. intros Hg.
    apply negb_true_iff in Hn.
    assert (existsb (String.eqb x) gone = true); [|congruence].
    apply existsb_exists. exists x. split; [assumption|apply String.eqb_refl].
  - intros [Hx Hn]. split; [assumption|]. apply negb_true_iff.
    destruct (existsb (String.eqb x) gone) eqn:E; [|reflexivity].
    apply existsb_exists in E as (y & Hy & Exy).
    apply String.eqb_eq in Exy. subst y. contradiction.
Qed.

(** The tags of a cluster that carries a tag of its own. *)
Lemma tags_restored_witness :
  exists w',
    TestTags Double.succeeding
      (Double.attribute Double.succeeding "GetClusterTags")
      (Double.attribute Double.succeeding "AddClusterTags")
      (Double.attribute Double.succeeding "DeleteClusterTags") []
      (Double.start (Double.mkCluster [] ["production"] 0)) = (Ok tt, w') /\
    forall x,
      In x (Double.cluster_tags (cluster w')) <->
      In x ["production"] /\ ~ In x ["tag1"; "tag2"; "tag3"].
Proof.
  apply (TestTags_leaves_the_tags_as_they_were Double.succeeding
           (Double.attribute Double.succeeding "GetClusterTags")
           (Double.attribute Double.succeeding "AddClusterTags")
           (Double.attribute Double.succeeding "DeleteClusterTags") []
           Double.cluster_tags).
  - intros w. eexists _, _. split; reflexivity.
  - intros w ts. eexists _, _. split; reflexivity.
  - intros w ts. eexists _, _. split; reflexivity.
  - intros w ts. eexists _, _. split; [reflexivity|]. intros x.
    change (In x (Double.cluster_tags (cluster w) ++
                  Double.names (Some (VList (map VStr ts)))) <->
            In x (Double.cluster_tags (cluster w)) \/ In x ts).
    rewrite names_of_strings. apply in_app_iff.
  - intros w ts. eexists _, _. split; [reflexivity|]. intros x.
    change (In x (Double.without (Double.names (Some (VList (map VStr ts))))
                    (Double.cluster_tags (cluster w))) <->
            In x (Double.cluster_tags (cluster w)) /\ ~ In x ts).
    rewrite names_of_strings. apply in_without.
Defined.

Lemma workload_witness :
  fst (Workload unit unit Double.hostname Double.hostname
         (fun _ => Double.nothing) (fun _ => Double.nothing) (ret tt)
         Double.no_nodes (fun _ => Double.nothing) (ret tt)
         Double.rejecting_status (Double.start Double.empty)) <>
    Raise (GanetiApiError "404 Not Found") /\
  fst (Double.run_Main ["rapi-workload.py"; "qa.json"]
         (Double.start Double.empty)) <>
    Raise (GanetiApiError "404 Not Found").
Proof.
  destruct (Workload_and_Main_raise_no_api_error unit unit Double.hostname
              Double.hostname (fun _ => Double.nothing)
              (fun _ => Double.nothing) (fun _ => Double.nothing) (ret tt)
              Double.no_nodes (fun _ => Double.nothing) (ret tt)
              Double.nothing Double.nothing (fun _ => ret "secret")
              (fun _ _ => ret (_client Double.succeeding))
              ltac:(intros ? ? ?; discriminate)
              ltac:(intros ? ? ?; discriminate)
              ltac:(intros ? ? ?; discriminate)
              ltac:(intros ? ?; discriminate)
              ltac:(intros ? ? ?; discriminate)
              ltac:(intros ? ? ?; discriminate)
              ltac:(intros ? ?; discriminate)
              ltac:(intros ? ?; discriminate)
              ltac:(intros ? ?; discriminate)
              ltac:(intros ? ? ?; discriminate)
              ltac:(intros ? ? ? ?; discriminate)
              (Double.start Double.empty) "404 Not Found") as [HW HM].
  split; [apply HW|apply HM].
Defined.
